(** * OpenAssetIO-TraitGen: the markdown generator

    A shallow embedding of
    [python/openassetio_traitgen/generators/markdown.py] and the
    properties of its text filters and of its [generate] entry point.

    Conventions of the embedding:
    - a Python [str] is the list of its Unicode code points ([list N]);
    - the effects of [generate] (the file system, the caller's creation
      callback, raised exceptions) are threaded through a state and
      exception monad [M]; the state survives a raised exception, as the
      files written before a failure stay on disk;
    - what the module imports but does not define (Jinja2, the bundled
      templates, the operating system) is taken as a parameter or given a
      small model, each one documented where it is declared. *)

From Stdlib Require Import NArith List String Ascii Lia.
From stdpp Require Import gmap list.

(** ** Python strings *)

Abbreviation pystr := (list N).

(** The [str] denoted by an ASCII literal. *)
Definition py (s : string) : pystr := map N_of_ascii (list_ascii_of_string s).
Arguments py s%_string.

Definition COLON : N := 58.
Definition LF : N := 10.
Definition SPACE : N := 32.
Definition HYPHEN : N := 45.
Definition ASTERISK : N := 42.
Definition SLASH : N := 47.
Definition DQUOTE : N := 34.

(** ** The [re] module, as far as [cleanup_md_string] uses it *)

(** [\s] on a [str] pattern: the code points for which CPython's
    [Py_UNICODE_ISSPACE] holds. *)
Definition is_space (c : N) : bool :=
  ((9 <=? c) && (c <=? 13) || (28 <=? c) && (c <=? 32)
   || (c =? 133) || (c =? 160) || (c =? 5760)
   || (8192 <=? c) && (c <=? 8202)
   || (c =? 8232) || (c =? 8233) || (c =? 8239) || (c =? 8287)
   || (c =? 12288))%N.

(** The character class [[-\*]]. *)
Definition is_list_marker (c : N) : bool := ((c =? HYPHEN) || (c =? ASTERISK))%N.

(** A compiled pattern together with its replacement template: tried at
    the head of the remaining text, it answers with the expanded
    replacement and the length of the match. *)
Definition matcher := pystr -> option (pystr * nat).

(** Length of the longest run of whitespace at the head of [s]: what the
    greedy [\s*] consumes.  No backtracking is needed after it, because
    the class that follows contains no whitespace. *)
Fixpoint count_spaces (s : pystr) : nat :=
  match s with
  | c :: s' => if is_space c then S (count_spaces s') else 0
  | [] => 0
  end.

(** The first pattern of [cleanup_md_string]: group 1 is a colon and the
    whitespace after it, group 2 is one of the two list markers; the
    replacement template is a colon, a line feed, a space and group 2. *)
Definition colon_marker : matcher := fun s =>
  match s with
  | c :: s' =>
      if (c =? COLON)%N then
        let k := count_spaces s' in
        match nth_error s' k with
        | Some m =>
            if is_list_marker m then Some ([COLON; LF; SPACE; m], S (S k))
            else None
        | None => None
        end
      else None
  | [] => None
  end.

(** [str.startswith]. *)
Fixpoint starts_with (pat s : pystr) : bool :=
  match pat, s with
  | [], _ => true
  | p :: pat', c :: s' => (p =? c)%N && starts_with pat' s'
  | _ :: _, [] => false
  end.

(** A pattern without metacharacters, with a replacement without escapes. *)
Definition literal (pat repl : pystr) : matcher := fun s =>
  if starts_with pat s then Some (repl, length pat) else None.

(** The scan of [re.sub]: leftmost matches, not overlapping.  [skip] counts
    the characters of the current match that are still to be passed over.
    Both patterns of this module match at least one character, so the
    engine's rule for empty matches is left out. *)
Fixpoint sub_scan (m : matcher) (skip : nat) (s : pystr) : pystr :=
  match s with
  | [] => []
  | c :: s' =>
      match skip with
      | S k => sub_scan m k s'
      | O =>
          match m s with
          | Some (repl, len) => repl ++ sub_scan m (pred len) s'
          | None => c :: sub_scan m 0 s'
          end
      end
  end.

Definition re_sub (m : matcher) (s : pystr) : pystr := sub_scan m 0 s.

(** ** Custom filters ([_install_custom_filters]) *)

Definition seq003_pattern : pystr :=
  py "asset - `" ++ [DQUOTE] ++ py "seq003" ++ [DQUOTE] ++ py "`".
Definition seq003_replacement : pystr :=
  py "asset" ++ [LF] ++ py "- `" ++ [DQUOTE] ++ py "seq003" ++ [DQUOTE] ++ py "`".

Definition cleanup_md_string (string : pystr) : pystr :=
  let new_string := re_sub colon_marker string in
  let new_string := re_sub (literal seq003_pattern seq003_replacement) new_string in
  new_string.

(** Modelled from the spec: the enumeration [PropertyType] of the package's
    [datamodel] module, which is imported here and declared elsewhere. *)
Inductive PropertyType := STRING | INTEGER | FLOAT | BOOL | DICT.

#[global] Instance PropertyType_eq_dec : EqDecision PropertyType.
Proof. solve_decision. Defined.

(** What a template may hand to [to_type_pretty_name]: a member of
    [PropertyType]; any other hashable object, named by its [repr], which
    compares unequal to every member; or an object that cannot be hashed
    (a list, a dict, a set), for which [hash] raises [TypeError] with the
    given message. *)
Inductive DeclarationType :=
| Member (t : PropertyType)
| Other (repr : pystr)
| Unhashable (message : pystr).

#[global] Instance DeclarationType_eq_dec : EqDecision DeclarationType.
Proof. solve_decision. Defined.

Inductive Exception :=
| TypeError (msg : pystr)
| KeyError (key : DeclarationType)
| TemplateNotFound (name : pystr)
| PermissionError (path : pystr)
| FileExistsError (path : pystr)
| IsADirectoryError (path : pystr)
| NotADirectoryError (path : pystr)
| UnicodeEncodeError
| Raised (repr : pystr).

Definition type_map : list (PropertyType * pystr) :=
  [ (STRING, py "string");
    (INTEGER, py "integer");
    (FLOAT, py "float");
    (BOOL, py "boolean");
    (DICT, py "dict") ].

(** The search for a hashed key among the entries of a dictionary keyed
    by members of [PropertyType]. *)
Fixpoint find_key (d : list (PropertyType * pystr)) (key : DeclarationType)
  : Exception + pystr :=
  match d with
  | [] => inl (KeyError key)
  | (k, v) :: d' => if decide (key = Member k) then inr v else find_key d' key
  end.

(** [d[key]]: the key is hashed first, which raises for an object that
    cannot be hashed, and then searched. *)
Definition getitem (d : list (PropertyType * pystr)) (key : DeclarationType)
  : Exception + pystr :=
  match key with
  | Unhashable message => inl (TypeError message)
  | _ => find_key d key
  end.

Definition to_type_pretty_name (declaration_type : DeclarationType)
  : Exception + pystr :=
  if decide (declaration_type = Member DICT) then
    inl (TypeError (py "Dictionary types are not yet supported as trait properties"))
  else getitem type_map declaration_type.

(** ** [os.path] and the file system *)

(** [posixpath.join]: a component that starts with the separator restarts
    the path; otherwise it is appended, behind a separator unless the path
    so far is empty or already ends with one. *)
Definition join2 (path b : pystr) : pystr :=
  if starts_with [SLASH] b then b
  else if bool_decide (path = []) || bool_decide (last path = Some SLASH)
       then path ++ b
       else path ++ [SLASH] ++ b.

Definition os_path_join (a : pystr) (p : list pystr) : pystr :=
  fold_left join2 p a.

Inductive Node :=
| Dir
| File (content : pystr).

(** The intermediate directories of a path, outermost first: what stands
    before a separator, without trailing separators, where a name still
    follows.  These are the directories [os.makedirs] makes, when they
    are missing, before it makes the path itself.  The root is none of
    them, and a path is taken as it is spelled. *)
Definition has_name (s : pystr) : bool :=
  existsb (fun c => negb (c =? SLASH)%N) s.

Fixpoint intermediate_from (before rest : pystr) : list pystr :=
  match rest with
  | [] => []
  | c :: rest' =>
      (if (c =? SLASH)%N && negb (bool_decide (before = []))
          && negb (bool_decide (last before = Some SLASH)) && has_name rest'
       then [before] else [])
      ++ intermediate_from (before ++ [c]) rest'
  end.

Definition intermediate_dirs (path : pystr) : list pystr :=
  intermediate_from [] path.


(** Code points that UTF-8 cannot encode: the surrogates. *)
Definition encodable (text : pystr) : bool :=
  forallb (fun c => negb ((55296 <=? c) && (c <=? 57343))%N) text.

(** ** The generator *)

Section Model.

(** The types this module only passes around: namespace declarations,
    the values of the caller's globals, the logger, and whatever state
    the caller's creation callback keeps. *)
Context {NamespaceDeclaration Object Logger CB : Type}.

(** Modelled from the spec: [PackageDeclaration] of the [datamodel]
    module, with the attributes this generator reads.  [None] stands
    for an attribute that is absent (or set to [None]): [getattr] with
    its default cannot tell the two apart. *)
Record PackageDeclaration := {
  id : pystr;
  traits : option (list NamespaceDeclaration);
  specifications : option (list NamespaceDeclaration);
}.

(** Values bound to template variables. *)
Inductive Value :=
| VNone
| VPackage (p : PackageDeclaration)
| VList (l : list NamespaceDeclaration).

Inductive Filter :=
| StrFilter (f : pystr -> pystr)
| DeclFilter (f : DeclarationType -> Exception + pystr).

(** A compiled template: what it renders to, given the globals and the
    filters of its environment and the variables of the call. *)
Definition Template : Type :=
  gmap pystr Object -> gmap pystr Filter -> gmap pystr Value -> Exception + pystr.

Record Environment := {
  loader : pystr -> option Template;
  globals : gmap pystr Object;
  filters : gmap pystr Filter;
}.

(** The part of the [jinja2] package the generator relies on: the
    globals and filters every new environment starts with, and, for a
    Python package, the templates found in its [templates] directory. *)
Record Jinja2 := {
  DEFAULT_NAMESPACE : gmap pystr Object;
  DEFAULT_FILTERS : gmap pystr Filter;
  PackageLoader : pystr -> pystr -> option Template;
}.

(** Calls that leave the module, in the order they are made. *)
Inductive Event :=
| EvMakedirs (path : pystr)
| EvGetTemplate (name : pystr)
| EvOpen (path : pystr)
| EvRender (name : pystr) (variables : gmap pystr Value)
| EvCallback (path : pystr).

(** The world [generate] acts on: the file system (each known path is a
    directory or a file with its text), the paths the operating system
    refuses to create or write, the state of the caller's callback, and
    the calls made. *)
Record World := {
  fs : gmap pystr Node;
  denied : pystr -> bool;
  cb_state : CB;
  trace : list Event;
}.

(** The caller's [creation_callback]: it may change its own state and
    may raise. *)
Definition Callback : Type := pystr -> CB -> CB * option Exception.

(** *** State and exceptions *)

Definition M (A : Type) : Type := World -> World * (Exception + A).

Definition ret {A} (a : A) : M A := fun w => (w, inr a).
Definition raise {A} (e : Exception) : M A := fun w => (w, inl e).
Definition bind {A B} (m : M A) (k : A -> M B) : M B := fun w =>
  match m w with
  | (w', inr a) => k a w'
  | (w', inl e) => (w', inl e)
  end.

Notation "x <- c1 ;; c2" := (bind c1 (fun x => c2))
  (at level 100, c1 at next level, right associativity).
Notation "c1 ;; c2" := (bind c1 (fun _ => c2))
  (at level 100, right associativity).

Definition log (ev : Event) : M unit := fun w =>
  ({| fs := fs w; denied := denied w; cb_state := cb_state w;
      trace := trace w ++ [ev] |}, inr tt).

Definition set_fs (path : pystr) (n : Node) : M unit := fun w =>
  ({| fs := <[path := n]> (fs w); denied := denied w;
      cb_state := cb_state w; trace := trace w |}, inr tt).

(** The directories of a chain are made one below the other, the
    outermost first.  A directory that is there is left as it is; a
    missing one is made, unless the operating system refuses it; below
    a file nothing can be made, and a file where the last directory is
    to be is an error as well. *)
Fixpoint make_chain (chain : list pystr) : M unit :=
  match chain with
  | [] => ret tt
  | q :: below =>
      fun w =>
        match fs w !! q with
        | Some Dir => make_chain below w
        | Some (File _) =>
            match below with
            | [] => raise (FileExistsError q) w
            | child :: _ => raise (NotADirectoryError child) w
            end
        | None =>
            if denied w q then raise (PermissionError q) w
            else (set_fs q Dir ;; make_chain below) w
        end
  end.

(** [os.makedirs(path, exist_ok=True)]: the intermediate directories
    and then the path itself; with [exist_ok] a directory that is
    already there is no error. *)
Definition os_makedirs (path : pystr) : M unit :=
  log (EvMakedirs path) ;;
  make_chain (intermediate_dirs path ++ [path]).

(** [open(path, 'w', encoding='utf-8', newline=LF)]: the file is
    created, or emptied when it exists. *)
Definition open_w (path : pystr) : M unit :=
  log (EvOpen path) ;;
  fun w =>
    if denied w path then raise (PermissionError path) w
    else match fs w !! path with
         | Some Dir => raise (IsADirectoryError path) w
         | _ => set_fs path (File []) w
         end.

(** [f.write(text)] on the file just opened, and its closing.  With
    this [newline] setting the text is stored as it is. *)
Definition write (path text : pystr) : M unit :=
  if encodable text then set_fs path (File text) else raise UnicodeEncodeError.

Definition call (creation_callback : Callback) (path : pystr) : M unit :=
  log (EvCallback path) ;;
  fun w =>
    let '(s, r) := creation_callback path (cb_state w) in
    ({| fs := fs w; denied := denied w; cb_state := s; trace := trace w |},
     match r with Some e => inl e | None => inr tt end).

(** [env.get_template(name)]. *)
Definition get_template (env : Environment) (name : pystr) : M Template :=
  log (EvGetTemplate name) ;;
  match loader env name with
  | Some template => ret template
  | None => raise (TemplateNotFound name)
  end.

(** [template.render(variables)], for the template loaded as [name]. *)
Definition render (env : Environment) (name : pystr) (template : Template)
    (variables : gmap pystr Value) : M pystr :=
  log (EvRender name variables) ;;
  match template (globals env) (filters env) variables with
  | inr text => ret text
  | inl e => raise e
  end.

(** *** Jinja setup *)

Definition _install_custom_filters (environment : Environment) (logger : Logger)
  : Environment :=
  {| loader := loader environment;
     globals := globals environment;
     filters :=
       <[py "to_type_pretty_name" := DeclFilter to_type_pretty_name]>
         (<[py "cleanup_md_string" := StrFilter cleanup_md_string]>
            (filters environment)) |}.

Definition _create_jinja_env (jinja2 : Jinja2) (env_globals : gmap pystr Object)
    (logger : Logger) : Environment :=
  let env := {| loader := PackageLoader jinja2 (py "openassetio_traitgen");
                globals := DEFAULT_NAMESPACE jinja2;
                filters := DEFAULT_FILTERS jinja2 |} in
  let env := {| loader := loader env;
                globals := env_globals ∪ globals env;
                filters := filters env |} in
  _install_custom_filters env logger.

(** *** [generate] *)

(** [getattr(package_declaration, kind, None)]. *)
Definition getattr_or_none (package_declaration : PackageDeclaration)
    (kind : pystr) : option (list NamespaceDeclaration) :=
  if decide (kind = py "traits") then traits package_declaration
  else if decide (kind = py "specifications") then specifications package_declaration
  else None.

(** The truth value of [namespaces] in [if namespaces:]. *)
Definition truthy (namespaces : option (list NamespaceDeclaration)) : bool :=
  match namespaces with
  | Some (_ :: _) => true
  | _ => false
  end.

Definition to_value (namespaces : option (list NamespaceDeclaration)) : Value :=
  match namespaces with
  | Some l => VList l
  | None => VNone
  end.

(** A [for] loop whose body updates the local variables [s]. *)
Fixpoint for_each {A S} (items : list A) (body : A -> S -> M S) (s : S) : M S :=
  match items with
  | [] => ret s
  | x :: items' => s' <- body x s ;; for_each items' body s'
  end.

Definition render_template (env : Environment) (creation_callback : Callback)
    (name path : pystr) (variables : gmap pystr Value) : M unit :=
  template <- get_template env (py "markdown/" ++ name ++ py ".md.in") ;;
  open_w path ;;
  text <- render env (py "markdown/" ++ name ++ py ".md.in") template variables ;;
  write path text ;;
  call creation_callback path.

Definition create_dir_with_path_components (creation_callback : Callback)
    (a : pystr) (args : list pystr) : M pystr :=
  let path := os_path_join a args in
  os_makedirs path ;;
  call creation_callback path ;;
  ret path.

Definition generate (jinja2 : Jinja2) (package_declaration : PackageDeclaration)
    (globals_ : gmap pystr Object) (output_directory : pystr)
    (creation_callback : Callback) (logger : Logger) : M unit :=
  let env := _create_jinja_env jinja2 globals_ logger in
  output_dir_path <-
    create_dir_with_path_components creation_callback
      output_directory [id package_declaration ++ py "-md"] ;;
  namespace_lists <-
    for_each [py "traits"; py "specifications"]
      (fun kind '(trait_namespaces, specification_namespaces) =>
         let namespaces := getattr_or_none package_declaration kind in
         if truthy namespaces then
           let namespace_lists :=
             if decide (kind = py "traits")
             then (trait_namespaces ++ default [] namespaces, specification_namespaces)
             else (trait_namespaces, specification_namespaces ++ default [] namespaces) in
           render_template env creation_callback kind
             (os_path_join output_dir_path [kind ++ py ".md"])
             {[ py "package" := VPackage package_declaration;
                py "namespaces" := to_value namespaces ]} ;;
           ret namespace_lists
         else ret (trait_namespaces, specification_namespaces))
      ([], []) ;;
  render_template env creation_callback (py "index")
    (os_path_join output_dir_path [py "index.md"])
    {[ py "package" := VPackage package_declaration;
       py "trait_namespaces" := VList namespace_lists.1;
       py "specification_namespaces" := VList namespace_lists.2 ]}.

End Model.

Arguments PackageDeclaration : clear implicits.
Arguments Value : clear implicits.
Arguments Event : clear implicits.
Arguments Template : clear implicits.
Arguments Environment : clear implicits.
Arguments Jinja2 : clear implicits.
Arguments World : clear implicits.
Arguments Callback : clear implicits.
Arguments M : clear implicits.

(** ** The documents of a package *)

Section Documents.

Context {NamespaceDeclaration : Type}.

(** A document to render: template name, output path, variables. *)
Definition Document : Type :=
  pystr * pystr * gmap pystr (Value NamespaceDeclaration).

Definition listing (package_declaration : PackageDeclaration NamespaceDeclaration)
    (output_dir_path kind : pystr) : list Document :=
  if truthy (getattr_or_none package_declaration kind) then
    [ (kind, os_path_join output_dir_path [kind ++ py ".md"],
       {[ py "package" := VPackage package_declaration;
          py "namespaces" := to_value (getattr_or_none package_declaration kind) ]}) ]
  else [].

Definition index (package_declaration : PackageDeclaration NamespaceDeclaration)
    (output_dir_path : pystr) : Document :=
  (py "index", os_path_join output_dir_path [py "index.md"],
   {[ py "package" := VPackage package_declaration;
      py "trait_namespaces" := VList (default [] (traits package_declaration));
      py "specification_namespaces" :=
        VList (default [] (specifications package_declaration)) ]}).

(** The documents that a complete run of [generate] renders, in order. *)
Definition documents (package_declaration : PackageDeclaration NamespaceDeclaration)
    (output_dir_path : pystr) : list Document :=
  listing package_declaration output_dir_path (py "traits")
  ++ listing package_declaration output_dir_path (py "specifications")
  ++ [index package_declaration output_dir_path].

Definition template_name (name : pystr) : pystr :=
  py "markdown/" ++ name ++ py ".md.in".

(** The calls one [render_template] makes when nothing fails. *)
Definition document_events (d : Document) : list (Event NamespaceDeclaration) :=
  [ EvGetTemplate (template_name d.1.1);
    EvOpen d.1.2;
    EvRender (template_name d.1.1) d.2;
    EvCallback d.1.2 ].

Definition output_dir (package_declaration : PackageDeclaration NamespaceDeclaration)
    (output_directory : pystr) : pystr :=
  os_path_join output_directory [id package_declaration ++ py "-md"].

(** The calls of a complete run. *)
Definition expected_trace (package_declaration : PackageDeclaration NamespaceDeclaration)
    (output_directory : pystr) : list (Event NamespaceDeclaration) :=
  EvMakedirs (output_dir package_declaration output_directory)
  :: EvCallback (output_dir package_declaration output_directory)
  :: concat (map document_events
               (documents package_declaration
                  (output_dir package_declaration output_directory))).

Definition callbacks (evs : list (Event NamespaceDeclaration)) : list pystr :=
  omap (fun ev => match ev with EvCallback p => Some p | _ => None end) evs.

Definition renders (evs : list (Event NamespaceDeclaration))
  : list (pystr * gmap pystr (Value NamespaceDeclaration)) :=
  omap (fun ev => match ev with EvRender n v => Some (n, v) | _ => None end) evs.

Definition opened (evs : list (Event NamespaceDeclaration)) : list pystr :=
  omap (fun ev => match ev with EvOpen p => Some p | _ => None end) evs.

Definition lookups (evs : list (Event NamespaceDeclaration)) : list pystr :=
  omap (fun ev => match ev with EvGetTemplate n => Some n | _ => None end) evs.

End Documents.

(** The rendering of a list of documents, one after the other: what is
    left of [generate] once the directory is there. *)
Definition render_documents {NamespaceDeclaration Object CB : Type}
    (env : Environment NamespaceDeclaration Object) (creation_callback : Callback CB)
    (docs : list (@Document NamespaceDeclaration)) : M NamespaceDeclaration CB unit :=
  for_each docs
    (fun d _ => render_template env creation_callback d.1.1 d.1.2 d.2) tt.

(** [text] is what the template of document [d] renders to in [env]: the
    template is bundled, renders without raising, and UTF-8 can encode
    its text. *)
Definition rendered {NamespaceDeclaration Object : Type}
    (env : Environment NamespaceDeclaration Object)
    (d : @Document NamespaceDeclaration) (text : pystr) : Prop :=
  exists t, loader env (template_name d.1.1) = Some t /\
            t (globals env) (filters env) d.2 = inr text /\
            encodable text = true.

(** ** A concrete setting *)

Module Demo.

(** Namespaces are their names, globals are strings, the callback keeps
    the list of the paths it was given. *)
Definition render_names (variables : gmap pystr (Value pystr)) (key : pystr) : pystr :=
  match variables !! key with
  | Some (VList l) => concat l
  | _ => py "?"
  end.

Definition listing_template : Template pystr pystr := fun _ _ variables =>
  inr (py "# " ++ render_names variables (py "namespaces")).

Definition index_template : Template pystr pystr := fun _ _ variables =>
  inr (render_names variables (py "trait_namespaces") ++ py "|"
       ++ render_names variables (py "specification_namespaces")).

(** A specifications template with a property of type [DICT]. *)
Definition dict_template : Template pystr pystr := fun _ fl _ =>
  match fl !! py "to_type_pretty_name" with
  | Some (DeclFilter f) => f (Member DICT)
  | _ => inl (Raised (py "no filter"))
  end.

Definition templates (spec_template : Template pystr pystr)
    (package name : pystr) : option (Template pystr pystr) :=
  if decide (package = py "openassetio_traitgen") then
    if decide (name = py "markdown/traits.md.in") then Some listing_template
    else if decide (name = py "markdown/specifications.md.in") then Some spec_template
    else if decide (name = py "markdown/index.md.in") then Some index_template
    else None
  else None.

Definition jinja2 : Jinja2 pystr pystr :=
  {| DEFAULT_NAMESPACE := ∅; DEFAULT_FILTERS := ∅;
     PackageLoader := templates listing_template |}.

Definition jinja2_dict : Jinja2 pystr pystr :=
  {| DEFAULT_NAMESPACE := ∅; DEFAULT_FILTERS := ∅;
     PackageLoader := templates dict_template |}.

Definition record_path : Callback (list pystr) := fun path seen => (seen ++ [path], None).

Definition both : PackageDeclaration pystr :=
  {| id := py "pkg"; traits := Some [py "usage"]; specifications := Some [py "shot"] |}.
Definition traits_only : PackageDeclaration pystr :=
  {| id := py "pkg"; traits := Some [py "usage"]; specifications := None |}.

Definition fresh : World pystr (list pystr) :=
  {| fs := ∅; denied := fun _ => false; cb_state := []; trace := [] |}.

Definition run (j : Jinja2 pystr pystr) (p : PackageDeclaration pystr)
    (w : World pystr (list pystr)) :=
  generate j p ∅ (py "out") record_path tt w.

End Demo.

(** ** The wording of the specification for the text filter *)

(** The specification describes each substitution as: every occurrence of
    a pattern is rewritten.  [occ s repl rest] says that [s] begins with
    an occurrence, to be rewritten to [repl], and goes on with [rest];
    occurrences are taken from left to right and do not overlap. *)
Inductive rewrite_all (occ : pystr -> pystr -> pystr -> Prop) : pystr -> pystr -> Prop :=
| rewrite_nil : rewrite_all occ [] []
| rewrite_here s repl rest out :
    occ s repl rest -> rewrite_all occ rest out ->
    rewrite_all occ s (repl ++ out)
| rewrite_next c s out :
    (forall repl rest, ~ occ (c :: s) repl rest) -> rewrite_all occ s out ->
    rewrite_all occ (c :: s) (c :: out).

(** A colon followed by optional whitespace and then a literal hyphen or
    asterisk; it yields the colon, a line break, one space and the marker. *)
Definition colon_marker_occurrence (s repl rest : pystr) : Prop :=
  exists ws m,
    s = COLON :: ws ++ m :: rest /\
    Forall (fun c => is_space c = true) ws /\
    (m = HYPHEN \/ m = ASTERISK) /\
    repl = [COLON; LF; SPACE; m].

(** The literal substring of the second substitution. *)
Definition seq003_occurrence (s repl rest : pystr) : Prop :=
  s = seq003_pattern ++ rest /\ repl = seq003_replacement.

(** Whether the first character behind the leading whitespace is a list
    marker: what decides a match of the first pattern just after a colon. *)
Fixpoint marker_after_spaces (s : pystr) : bool :=
  match s with
  | [] => false
  | c :: s' => if is_space c then marker_after_spaces s' else is_list_marker c
  end.

(** * Properties *)

(** ** The text filters *)

(** C3: [to_type_pretty_name] names the four supported property types
    and raises [TypeError] for [DICT].  Any other value fails in the
    lookup [type_map[declaration_type]]: with the [KeyError] of a missing
    key, carrying the value, when the value can be hashed, and with the
    [TypeError] of hashing when it cannot.  Nothing but the four supported
    members gets a name: there is no default. *)
Theorem to_type_pretty_name_cases :
  to_type_pretty_name (Member STRING) = inr (py "string") /\
  to_type_pretty_name (Member INTEGER) = inr (py "integer") /\
  to_type_pretty_name (Member FLOAT) = inr (py "float") /\
  to_type_pretty_name (Member BOOL) = inr (py "boolean") /\
  to_type_pretty_name (Member DICT) =
    inl (TypeError (py "Dictionary types are not yet supported as trait properties")) /\
  (forall repr, to_type_pretty_name (Other repr) = inl (KeyError (Other repr))) /\
  (forall message,
     to_type_pretty_name (Unhashable message) = inl (TypeError message)) /\
  (forall v name,
     to_type_pretty_name v = inr name ->
     v = Member STRING \/ v = Member INTEGER \/ v = Member FLOAT \/
     v = Member BOOL).
Proof.
  repeat split; try reflexivity.
  intros [[]|r|m] name H; try discriminate H; auto.
Qed.

(** The error for a value that is no property type is not one of its
    own: a list, which cannot be hashed, raises a [TypeError], the class
    of the error for the unsupported [DICT], and the message is that of
    hashing; a string raises a [KeyError] that carries nothing but the
    string. *)
Lemma unknown_value_error_not_distinct :
  (exists message,
     to_type_pretty_name (Unhashable (py "unhashable type: 'list'"))
     = inl (TypeError message)) /\
  (exists message, to_type_pretty_name (Member DICT) = inl (TypeError message)) /\
  to_type_pretty_name (Unhashable (py "unhashable type: 'list'"))
  = inl (TypeError (py "unhashable type: 'list'")) /\
  to_type_pretty_name (Other (py "'colour'")) = inl (KeyError (Other (py "'colour'"))).
Proof. repeat split; eexists; reflexivity. Qed.

(** *** The scan of [re_sub] *)

Lemma sub_scan_skip (m : matcher) (k : nat) (s : pystr) :
  sub_scan m k s = sub_scan m 0 (skipn k s).
Proof.
  revert k. induction s as [|c s IH]; intros k.
  - destruct k; reflexivity.
  - destruct k as [|k]; [reflexivity|]. simpl. apply IH.
Qed.

Lemma re_sub_nil (m : matcher) : re_sub m [] = [].
Proof. reflexivity. Qed.

Lemma re_sub_match (m : matcher) (c : N) (s repl : pystr) (len : nat) :
  m (c :: s) = Some (repl, S len) ->
  re_sub m (c :: s) = repl ++ re_sub m (skipn len s).
Proof.
  intros H. unfold re_sub. simpl. rewrite H. simpl.
  now rewrite sub_scan_skip.
Qed.

Lemma re_sub_nomatch (m : matcher) (c : N) (s : pystr) :
  m (c :: s) = None -> re_sub m (c :: s) = c :: re_sub m s.
Proof. intros H. unfold re_sub. simpl. now rewrite H. Qed.

(** *** The two patterns *)

Lemma is_list_marker_true (m : N) :
  is_list_marker m = true <-> m = HYPHEN \/ m = ASTERISK.
Proof.
  unfold is_list_marker. rewrite orb_true_iff, !N.eqb_eq. tauto.
Qed.

Lemma marker_not_space (m : N) : is_list_marker m = true -> is_space m = false.
Proof. rewrite is_list_marker_true. intros [-> | ->]; reflexivity. Qed.

Lemma count_spaces_run (ws : pystr) (m : N) (rest : pystr) :
  Forall (fun c => is_space c = true) ws -> is_space m = false ->
  count_spaces (ws ++ m :: rest) = length ws.
Proof.
  intros Hws Hm. induction Hws as [|c ws Hc _ IH]; simpl.
  - now rewrite Hm.
  - now rewrite Hc, IH.
Qed.

Lemma count_spaces_split (s : pystr) :
  Forall (fun c => is_space c = true) (firstn (count_spaces s) s).
Proof.
  induction s as [|c s IH]; simpl; [constructor|].
  destruct (is_space c) eqn:E; simpl; [constructor; assumption|constructor].
Qed.

Lemma marker_after_spaces_nth (s : pystr) :
  marker_after_spaces s =
  match nth_error s (count_spaces s) with
  | Some m => is_list_marker m
  | None => false
  end.
Proof.
  induction s as [|c s IH]; simpl; [reflexivity|].
  destruct (is_space c); simpl; [apply IH|reflexivity].
Qed.

Lemma colon_marker_not_colon (c : N) (s : pystr) :
  c <> COLON -> colon_marker (c :: s) = None.
Proof. intros H. simpl. apply N.eqb_neq in H. now rewrite H. Qed.

Lemma colon_marker_none (s : pystr) :
  marker_after_spaces s = false -> colon_marker (COLON :: s) = None.
Proof.
  intros H. rewrite marker_after_spaces_nth in H. simpl.
  destruct (nth_error s (count_spaces s)); [now rewrite H|reflexivity].
Qed.

Lemma colon_marker_some (ws : pystr) (m : N) (rest : pystr) :
  Forall (fun c => is_space c = true) ws -> is_list_marker m = true ->
  colon_marker (COLON :: ws ++ m :: rest)
  = Some ([COLON; LF; SPACE; m], S (S (length ws))).
Proof.
  intros Hws Hm. simpl.
  rewrite (count_spaces_run ws m rest Hws (marker_not_space m Hm)).
  rewrite nth_error_app2 by lia. rewrite Nat.sub_diag. simpl. now rewrite Hm.
Qed.

(** A match of the first pattern, read back as the text it covers. *)
Lemma colon_marker_inv (s repl : pystr) (len : nat) :
  colon_marker s = Some (repl, len) ->
  exists ws m rest,
    s = COLON :: ws ++ m :: rest /\
    Forall (fun c => is_space c = true) ws /\
    is_list_marker m = true /\
    repl = [COLON; LF; SPACE; m] /\
    len = S (S (length ws)).
Proof.
  destruct s as [|c s]; simpl; [discriminate|].
  destruct (N.eqb_spec c COLON) as [->|]; [|discriminate].
  destruct (nth_error s (count_spaces s)) as [m|] eqn:En; [|discriminate].
  destruct (is_list_marker m) eqn:Em; [|discriminate].
  intros [= <- <-].
  pose proof (nth_error_split s (count_spaces s) En) as (l1 & l2 & Hs & Hl).
  exists l1, m, l2. repeat split; try assumption.
  - now rewrite Hs at 1.
  - pose proof (count_spaces_split s) as Hf. rewrite Hs in Hf at 2.
    rewrite <- Hl in Hf. now rewrite firstn_app, Nat.sub_diag, firstn_all, app_nil_r in Hf.
  - now rewrite Hl.
Qed.

Lemma starts_with_app (pat rest : pystr) : starts_with pat (pat ++ rest) = true.
Proof. induction pat as [|p pat IH]; simpl; [reflexivity|]. now rewrite N.eqb_refl. Qed.

Lemma starts_with_inv (pat s : pystr) :
  starts_with pat s = true -> s = pat ++ skipn (length pat) s.
Proof.
  revert s. induction pat as [|p pat IH]; intros s; simpl; [reflexivity|].
  destruct s as [|c s]; [discriminate|].
  rewrite andb_true_iff, N.eqb_eq. intros [-> H]. simpl. f_equal. now apply IH.
Qed.

Lemma skipn_app_length (l1 l2 : pystr) : skipn (length l1) (l1 ++ l2) = l2.
Proof. induction l1; simpl; auto. Qed.

(** *** The scan rewrites every occurrence *)

Section Engine.

Variable m : matcher.
Variable occ : pystr -> pystr -> pystr -> Prop.

Hypothesis m_sound : forall s repl len,
  m s = Some (repl, len) ->
  exists c s' k, s = c :: s' /\ len = S k /\ occ s repl (skipn k s').
Hypothesis m_complete : forall s,
  m s = None -> forall repl rest, ~ occ s repl rest.
Hypothesis occ_functional : forall s r1 t1 r2 t2,
  occ s r1 t1 -> occ s r2 t2 -> r1 = r2 /\ t1 = t2.

Lemma re_sub_rewrites (s : pystr) : rewrite_all occ s (re_sub m s).
Proof.
  remember (length s) as n eqn:Hn.
  revert s Hn. induction n as [n IH] using lt_wf_ind. intros s ->.
  destruct s as [|c s]; [constructor|].
  destruct (m (c :: s)) as [[repl len]|] eqn:E.
  - destruct (m_sound _ _ _ E) as (c' & s' & k & [= <- <-] & -> & Hocc).
    rewrite (re_sub_match _ _ _ _ _ E).
    eapply rewrite_here; [exact Hocc|].
    eapply IH; [|reflexivity]. simpl. rewrite length_skipn. lia.
  - rewrite (re_sub_nomatch _ _ _ E).
    apply rewrite_next; [now apply m_complete|].
    eapply IH; [|reflexivity]. simpl. lia.
Qed.

Lemma rewrite_all_re_sub (s out : pystr) :
  rewrite_all occ s out -> re_sub m s = out.
Proof.
  induction 1 as [|s repl rest out Hocc _ IH|c s out Hno _ IH].
  - reflexivity.
  - destruct (m s) as [[repl' len]|] eqn:E.
    + destruct (m_sound _ _ _ E) as (c & s' & k & -> & -> & Hocc').
      destruct (occ_functional _ _ _ _ _ Hocc Hocc') as [-> ->].
      rewrite (re_sub_match _ _ _ _ _ E). now rewrite IH.
    + now destruct (m_complete _ E _ _ Hocc).
  - destruct (m (c :: s)) as [[repl len]|] eqn:E.
    + destruct (m_sound _ _ _ E) as (c' & s' & k & _ & _ & Hocc).
      now destruct (Hno _ _ Hocc).
    + rewrite (re_sub_nomatch _ _ _ E). now rewrite IH.
Qed.

Lemma re_sub_iff (s out : pystr) : re_sub m s = out <-> rewrite_all occ s out.
Proof.
  split; [intros <-; apply re_sub_rewrites|apply rewrite_all_re_sub].
Qed.

End Engine.

Lemma skipn_run (ws : pystr) (m : N) (rest : pystr) :
  skipn (S (length ws)) (ws ++ m :: rest) = rest.
Proof. induction ws; simpl; auto. Qed.

Lemma colon_marker_occurrence_match (s repl rest : pystr) :
  colon_marker_occurrence s repl rest ->
  exists s' k, s = COLON :: s' /\ rest = skipn (S k) s' /\
    colon_marker s = Some (repl, S (S k)).
Proof.
  intros (ws & m & -> & Hws & Hm & ->).
  apply is_list_marker_true in Hm.
  exists (ws ++ m :: rest), (length ws). repeat split.
  - now rewrite skipn_run.
  - now apply colon_marker_some.
Qed.

Lemma colon_marker_sound (s repl : pystr) (len : nat) :
  colon_marker s = Some (repl, len) ->
  exists c s' k, s = c :: s' /\ len = S k /\
    colon_marker_occurrence s repl (skipn k s').
Proof.
  intros H. destruct (colon_marker_inv _ _ _ H) as (ws & m & rest & -> & Hws & Hm & -> & ->).
  exists COLON, (ws ++ m :: rest), (S (length ws)). repeat split.
  exists ws, m. rewrite skipn_run. repeat split; try assumption.
  now apply is_list_marker_true.
Qed.

Lemma colon_marker_complete (s : pystr) :
  colon_marker s = None -> forall repl rest, ~ colon_marker_occurrence s repl rest.
Proof.
  intros H repl rest Hocc.
  destruct (colon_marker_occurrence_match _ _ _ Hocc) as (s' & k & _ & _ & E). congruence.
Qed.

Lemma colon_marker_occurrence_functional (s r1 t1 r2 t2 : pystr) :
  colon_marker_occurrence s r1 t1 -> colon_marker_occurrence s r2 t2 ->
  r1 = r2 /\ t1 = t2.
Proof.
  intros H1 H2.
  destruct (colon_marker_occurrence_match _ _ _ H1) as (s1 & k1 & -> & -> & E1).
  destruct (colon_marker_occurrence_match _ _ _ H2) as (s2 & k2 & [= <-] & -> & E2).
  rewrite E1 in E2. now injection E2 as -> ->.
Qed.

Lemma seq003_sound (s repl : pystr) (len : nat) :
  literal seq003_pattern seq003_replacement s = Some (repl, len) ->
  exists c s' k, s = c :: s' /\ len = S k /\ seq003_occurrence s repl (skipn k s').
Proof.
  unfold literal. destruct (starts_with seq003_pattern s) eqn:E; [|discriminate].
  intros [= <- <-]. apply starts_with_inv in E.
  destruct s as [|c s]; [discriminate E|].
  exists c, s, 17%nat. repeat split. exact E.
Qed.

Lemma seq003_complete (s : pystr) :
  literal seq003_pattern seq003_replacement s = None ->
  forall repl rest, ~ seq003_occurrence s repl rest.
Proof.
  unfold literal. intros H repl rest [-> _].
  now rewrite starts_with_app in H.
Qed.

Lemma seq003_occurrence_functional (s r1 t1 r2 t2 : pystr) :
  seq003_occurrence s r1 t1 -> seq003_occurrence s r2 t2 -> r1 = r2 /\ t1 = t2.
Proof.
  intros [-> ->] [E ->]. split; [reflexivity|]. now apply app_inv_head in E.
Qed.

(** C4: [cleanup_md_string] is the two substitutions of the specification,
    one after the other, and nothing else: its result is what rewriting
    every colon-and-marker occurrence, and then every occurrence of the
    seq003 literal in the outcome, gives.  Text without an occurrence is
    left as it is. *)
Theorem cleanup_md_string_two_substitutions (s out : pystr) :
  cleanup_md_string s = out <->
  exists mid,
    rewrite_all colon_marker_occurrence s mid /\
    rewrite_all seq003_occurrence mid out.
Proof.
  unfold cleanup_md_string. split.
  - intros <-. exists (re_sub colon_marker s). split.
    + apply re_sub_rewrites; [apply colon_marker_sound|apply colon_marker_complete].
    + apply re_sub_rewrites; [apply seq003_sound|apply seq003_complete].
  - intros (mid & H1 & H2).
    apply (rewrite_all_re_sub _ _ colon_marker_sound colon_marker_complete
             colon_marker_occurrence_functional) in H1.
    apply (rewrite_all_re_sub _ _ seq003_sound seq003_complete
             seq003_occurrence_functional) in H2.
    now rewrite H1, H2.
Qed.

(** The two examples of the specification. *)
Example cleanup_md_string_notes :
  cleanup_md_string (py "Notes: - item one") = py "Notes:" ++ [LF] ++ py " - item one".
Proof. reflexivity. Qed.

Example cleanup_md_string_seq003 :
  cleanup_md_string (py "an asset - `" ++ [DQUOTE] ++ py "seq003" ++ [DQUOTE] ++ py "` here")
  = py "an asset" ++ [LF] ++ py "- `" ++ [DQUOTE] ++ py "seq003" ++ [DQUOTE] ++ py "` here".
Proof. reflexivity. Qed.

(** *** Unfolding the two substitutions *)

Local Abbreviation sub1 := (re_sub colon_marker).
Local Abbreviation sub2 := (re_sub (literal seq003_pattern seq003_replacement)).
Local Abbreviation LETTER_A := 97%N.

Lemma sub1_cons_other (c : N) (s : pystr) :
  c <> COLON -> sub1 (c :: s) = c :: sub1 s.
Proof. intros H. apply re_sub_nomatch. now apply colon_marker_not_colon. Qed.

Lemma sub1_match (ws : pystr) (m : N) (rest : pystr) :
  Forall (fun c => is_space c = true) ws -> is_list_marker m = true ->
  sub1 (COLON :: ws ++ m :: rest) = COLON :: LF :: SPACE :: m :: sub1 rest.
Proof.
  intros Hws Hm.
  rewrite (re_sub_match _ _ _ _ _ (colon_marker_some ws m rest Hws Hm)).
  now rewrite skipn_run.
Qed.

Lemma colon_marker_none_inv (s : pystr) :
  colon_marker (COLON :: s) = None -> marker_after_spaces s = false.
Proof.
  rewrite marker_after_spaces_nth. simpl.
  destruct (nth_error s (count_spaces s)); [|reflexivity].
  now destruct (is_list_marker n).
Qed.

Lemma sub1_head (s : pystr) : hd_error (sub1 s) = hd_error s.
Proof.
  destruct s as [|c s]; [reflexivity|].
  destruct (colon_marker (c :: s)) as [[repl len]|] eqn:E.
  - destruct (colon_marker_inv _ _ _ E) as (ws & m & rest & [= -> ->] & _ & _ & -> & ->).
    now rewrite (re_sub_match _ _ _ _ _ E).
  - now rewrite (re_sub_nomatch _ _ _ E).
Qed.

Lemma literal_none (pat repl s : pystr) :
  starts_with pat s = false -> literal pat repl s = None.
Proof. unfold literal. now intros ->. Qed.

Lemma literal_none_inv (pat repl s : pystr) :
  literal pat repl s = None -> starts_with pat s = false.
Proof. unfold literal. now destruct (starts_with pat s). Qed.

Lemma sub2_cons_other (c : N) (s : pystr) :
  c <> LETTER_A -> sub2 (c :: s) = c :: sub2 s.
Proof.
  intros H. apply re_sub_nomatch. unfold literal.
  change seq003_pattern with (LETTER_A :: skipn 1 seq003_pattern).
  cbn [starts_with].
  destruct (N.eqb_spec LETTER_A c) as [E|_]; [now destruct H|reflexivity].
Qed.

Lemma sub2_match (rest : pystr) :
  sub2 (seq003_pattern ++ rest) = seq003_replacement ++ sub2 rest.
Proof.
  assert (E : literal seq003_pattern seq003_replacement (seq003_pattern ++ rest)
              = Some (seq003_replacement, 18%nat)).
  { unfold literal. now rewrite starts_with_app. }
  change (seq003_pattern ++ rest) with (LETTER_A :: skipn 1 seq003_pattern ++ rest) in *.
  now rewrite (re_sub_match _ _ _ _ _ E).
Qed.

Lemma sub2_head (s : pystr) : hd_error (sub2 s) = hd_error s.
Proof.
  destruct s as [|c s]; [reflexivity|].
  destruct (literal seq003_pattern seq003_replacement (c :: s)) as [[repl len]|] eqn:E.
  - destruct (seq003_sound _ _ _ E) as (c' & s' & k & _ & -> & Hs & ->).
    rewrite (re_sub_match _ _ _ _ _ E). now rewrite Hs.
  - now rewrite (re_sub_nomatch _ _ _ E).
Qed.

Lemma space_not_colon (w : N) : is_space w = true -> w <> COLON.
Proof. now intros H ->. Qed.

Lemma space_not_a (w : N) : is_space w = true -> w <> LETTER_A.
Proof. now intros H ->. Qed.

(** A function that keeps the first character and steps over leading
    whitespace does not change what follows the whitespace. *)
Section Transparent.

Variable g : pystr -> pystr.
Hypothesis g_head : forall x, hd_error (g x) = hd_error x.
Hypothesis g_space : forall w x, is_space w = true -> g (w :: x) = w :: g x.

Lemma marker_after_spaces_preserved (x : pystr) :
  marker_after_spaces (g x) = marker_after_spaces x.
Proof.
  induction x as [|c x IH].
  - specialize (g_head []). now destruct (g []).
  - simpl. destruct (is_space c) eqn:E.
    + rewrite (g_space _ _ E). simpl. now rewrite E.
    + specialize (g_head (c :: x)). destruct (g (c :: x)) as [|c' y]; [discriminate|].
      injection g_head as ->. simpl. now rewrite E.
Qed.

End Transparent.

Lemma sub1_app_other (q y : pystr) :
  Forall (fun c => c <> COLON) q -> sub1 (q ++ y) = q ++ sub1 y.
Proof.
  induction 1 as [|c q Hc _ IH]; simpl; [reflexivity|].
  now rewrite (sub1_cons_other _ _ Hc), IH.
Qed.

Lemma sub2_app_other (q y : pystr) :
  Forall (fun c => c <> LETTER_A) q -> sub2 (q ++ y) = q ++ sub2 y.
Proof.
  induction 1 as [|c q Hc _ IH]; simpl; [reflexivity|].
  now rewrite (sub2_cons_other _ _ Hc), IH.
Qed.

Lemma sub1_prefix_inv (q x y : pystr) :
  Forall (fun c => c <> COLON) q -> sub1 x = q ++ y ->
  exists x', x = q ++ x' /\ y = sub1 x'.
Proof.
  intros Hq. revert x. induction Hq as [|c q Hc _ IH]; intros x H.
  - now exists x.
  - pose proof (sub1_head x) as Hh. rewrite H in Hh. simpl in Hh.
    destruct x as [|c' x]; [discriminate|]. injection Hh as <-.
    rewrite (sub1_cons_other _ _ Hc) in H. injection H as H.
    destruct (IH _ H) as (x' & -> & ->). now exists x'.
Qed.

Lemma starts_with_sub2 (suf x : pystr) :
  Forall (fun c => c <> LETTER_A) suf ->
  starts_with suf (sub2 x) = true -> starts_with suf x = true.
Proof.
  intros Hs. revert x. induction Hs as [|p suf Hp _ IH]; intros x; [reflexivity|].
  pose proof (sub2_head x) as Hh.
  destruct x as [|c x]; [now rewrite re_sub_nil|].
  destruct (N.eq_dec c LETTER_A) as [->|Hc].
  - destruct (sub2 (LETTER_A :: x)) as [|c' y]; [discriminate|].
    injection Hh as ->. simpl.
    destruct (N.eqb_spec p LETTER_A) as [->|_]; [now destruct Hp|discriminate].
  - rewrite (sub2_cons_other _ _ Hc). simpl.
    rewrite !andb_true_iff. intros [? ?]. split; [assumption|now apply IH].
Qed.

Lemma seq003_pattern_tail_other :
  Forall (fun c => c <> LETTER_A) (skipn 1 seq003_pattern).
Proof. repeat constructor; discriminate. Qed.

Lemma seq003_replacement_tail_other :
  Forall (fun c => c <> LETTER_A) (skipn 1 seq003_replacement).
Proof. repeat constructor; discriminate. Qed.

Lemma seq003_replacement_no_colon :
  Forall (fun c => c <> COLON) seq003_replacement.
Proof. repeat constructor; discriminate. Qed.

Lemma seq003_pattern_tail_no_colon :
  Forall (fun c => c <> COLON) (skipn 1 seq003_pattern).
Proof. repeat constructor; discriminate. Qed.

(** The replacement text is passed over by the second substitution. *)
Lemma sub2_replacement (y : pystr) :
  sub2 (seq003_replacement ++ y) = seq003_replacement ++ sub2 y.
Proof.
  change (seq003_replacement ++ y)
    with (LETTER_A :: skipn 1 seq003_replacement ++ y).
  rewrite re_sub_nomatch by reflexivity.
  now rewrite (sub2_app_other _ _ seq003_replacement_tail_other).
Qed.

Lemma sub2_idempotent (x : pystr) : sub2 (sub2 x) = sub2 x.
Proof.
  remember (length x) as n eqn:Hn.
  revert x Hn. induction n as [n IH] using lt_wf_ind. intros x ->.
  destruct x as [|c x]; [reflexivity|].
  destruct (literal seq003_pattern seq003_replacement (c :: x)) as [[repl len]|] eqn:E.
  - destruct (seq003_sound _ _ _ E) as (c' & s' & k & [= <- <-] & -> & Hs & ->).
    remember (skipn k x) as rest eqn:Hrest. clear Hrest E.
    assert (Hlen : length (c :: x) = (18 + length rest)%nat)
      by (rewrite Hs, length_app; reflexivity).
    rewrite Hs. rewrite !sub2_match, sub2_replacement. f_equal.
    eapply IH; [|reflexivity]. lia.
  - rewrite (re_sub_nomatch _ _ _ E).
    rewrite re_sub_nomatch.
    + f_equal. eapply IH; [|reflexivity]. simpl. lia.
    + apply literal_none.
      destruct (starts_with seq003_pattern (c :: sub2 x)) eqn:E'; [|reflexivity].
      apply literal_none_inv in E.
      change seq003_pattern with (LETTER_A :: skipn 1 seq003_pattern) in E, E'.
      cbn [starts_with] in E, E'. apply andb_true_iff in E' as [Ec E'].
      apply (starts_with_sub2 _ _ seq003_pattern_tail_other) in E'.
      now rewrite Ec, E' in E.
Qed.

(** The first substitution leaves the outcome of both alone. *)
Lemma sub1_sub2_sub1 (s : pystr) : sub1 (sub2 (sub1 s)) = sub2 (sub1 s).
Proof.
  remember (length s) as n eqn:Hn.
  revert s Hn. induction n as [n IH] using lt_wf_ind. intros s ->.
  destruct s as [|c s]; [reflexivity|].
  destruct (colon_marker (c :: s)) as [[repl len]|] eqn:E.
  - destruct (colon_marker_inv _ _ _ E) as (ws & m & rest & [= -> ->] & Hws & Hm & -> & ->).
    rewrite (sub1_match _ _ _ Hws Hm).
    assert (Hma : m <> LETTER_A).
    { apply is_list_marker_true in Hm. destruct Hm as [-> | ->]; discriminate. }
    rewrite !sub2_cons_other by (assumption || discriminate).
    assert (Hsp : Forall (fun c => is_space c = true) [LF; SPACE])
      by (repeat constructor).
    pose proof (sub1_match [LF; SPACE] m (sub2 (sub1 rest)) Hsp Hm) as Hre.
    cbn [app] in Hre. rewrite Hre.
    do 4 f_equal. eapply IH; [|reflexivity].
    simpl. rewrite length_app. simpl. lia.
  - rewrite (re_sub_nomatch _ _ _ E).
    destruct (literal seq003_pattern seq003_replacement (c :: sub1 s))
      as [[repl len]|] eqn:E2.
    + destruct (seq003_sound _ _ _ E2) as (c' & s' & k & [= <- <-] & -> & Hs & ->).
      remember (skipn k (sub1 s)) as rest eqn:Hrest. clear Hrest E2.
      rewrite Hs. rewrite sub2_match.
      rewrite (sub1_app_other _ _ seq003_replacement_no_colon). f_equal.
      change seq003_pattern with (LETTER_A :: skipn 1 seq003_pattern) in Hs.
      injection Hs as -> Hs.
      destruct (sub1_prefix_inv _ _ _ seq003_pattern_tail_no_colon Hs) as (x' & -> & ->).
      eapply IH; [|reflexivity]. cbn [length]. rewrite length_app. lia.
    + rewrite (re_sub_nomatch _ _ _ E2).
      assert (IHs : sub1 (sub2 (sub1 s)) = sub2 (sub1 s)).
      { eapply IH; [|reflexivity]. simpl. lia. }
      destruct (N.eq_dec c COLON) as [->|Hc].
      * rewrite re_sub_nomatch; [now rewrite IHs|].
        apply colon_marker_none. apply colon_marker_none_inv in E.
        rewrite (marker_after_spaces_preserved (fun x => sub2 (sub1 x))); [exact E| |].
        -- intros x. now rewrite sub2_head, sub1_head.
        -- intros w x Hw.
           rewrite (sub1_cons_other _ _ (space_not_colon _ Hw)).
           now rewrite (sub2_cons_other _ _ (space_not_a _ Hw)).
      * now rewrite (sub1_cons_other _ _ Hc), IHs.
Qed.

(** Text with no colon and no letter a has no occurrence of either
    pattern: both substitutions leave it as it is. *)
Lemma cleanup_md_string_no_match (s : pystr) :
  Forall (fun c => c <> COLON) s -> Forall (fun c => c <> LETTER_A) s ->
  cleanup_md_string s = s.
Proof.
  intros H1 H2. unfold cleanup_md_string.
  rewrite <- (app_nil_r s) at 1.
  rewrite (sub1_app_other _ _ H1), re_sub_nil, app_nil_r.
  rewrite <- (app_nil_r s) at 1.
  now rewrite (sub2_app_other _ _ H2), re_sub_nil, app_nil_r.
Qed.

(** C10: [cleanup_md_string] is idempotent. *)
Theorem cleanup_md_string_idempotent (s : pystr) :
  cleanup_md_string (cleanup_md_string s) = cleanup_md_string s.
Proof.
  unfold cleanup_md_string. now rewrite sub1_sub2_sub1, sub2_idempotent.
Qed.

(** ** The generator *)

(** *** Paths *)

Lemma output_dir_shape {NamespaceDeclaration : Type}
    (package_declaration : PackageDeclaration NamespaceDeclaration)
    (output_directory : pystr) :
  exists x, output_dir package_declaration output_directory = x ++ py "-md".
Proof.
  unfold output_dir, os_path_join, join2. cbn [fold_left].
  destruct (starts_with _ _).
  - now exists (id package_declaration).
  - destruct (_ || _).
    + exists (output_directory ++ id package_declaration). now rewrite <- app_assoc.
    + exists (output_directory ++ [SLASH] ++ id package_declaration).
      now rewrite <- !app_assoc.
Qed.

(** Below a directory whose name ends in [-md], a relative file name is
    appended behind one separator. *)
Lemma join_below (x name : pystr) :
  starts_with [SLASH] name = false ->
  os_path_join (x ++ py "-md") [name] = (x ++ py "-md") ++ SLASH :: name.
Proof.
  intros Hn. unfold os_path_join, join2. cbn [fold_left]. rewrite Hn.
  rewrite bool_decide_eq_false_2 by (now destruct x).
  rewrite bool_decide_eq_false_2; [reflexivity|].
  change (py "-md") with ([45; 109] ++ [100])%N. rewrite app_assoc, last_snoc.
  discriminate.
Qed.

Lemma app_ne_self (d s : pystr) : s <> [] -> d <> d ++ s.
Proof.
  intros Hs E. apply (f_equal (@length N)) in E. rewrite length_app in E.
  destruct s; [congruence|]. simpl in E. lia.
Qed.

(** The intermediate directories of a path are shorter than the path and
    pairwise different. *)
Lemma intermediate_from_length (before rest q : pystr) :
  q ∈ intermediate_from before rest ->
  (length before <= length q < length before + length rest)%nat.
Proof.
  revert before. induction rest as [|c rest IH]; intros before; cbn [intermediate_from].
  - intros H. now apply elem_of_nil in H.
  - rewrite elem_of_app. intros [H|H].
    + destruct (_ && _); [|now apply elem_of_nil in H].
      apply list_elem_of_singleton in H as ->. cbn [length]. lia.
    + apply IH in H. rewrite length_app in H. cbn [length] in *. lia.
Qed.

Lemma intermediate_from_NoDup (before rest : pystr) :
  NoDup (intermediate_from before rest).
Proof.
  revert before. induction rest as [|c rest IH]; intros before; cbn [intermediate_from].
  - constructor.
  - apply NoDup_app. repeat split.
    + destruct (_ && _); [apply NoDup_singleton|constructor].
    + intros q H1 H2. destruct (_ && _); [|now apply elem_of_nil in H1].
      apply list_elem_of_singleton in H1 as ->.
      apply intermediate_from_length in H2. rewrite length_app in H2.
      cbn [length] in H2. lia.
    + apply IH.
Qed.

Lemma intermediate_dirs_shorter (path q : pystr) :
  q ∈ intermediate_dirs path -> (length q < length path)%nat.
Proof. intros H. apply intermediate_from_length in H. cbn [length] in H. lia. Qed.

Lemma chain_NoDup (path : pystr) : NoDup (intermediate_dirs path ++ [path]).
Proof.
  apply NoDup_app. repeat split.
  - apply intermediate_from_NoDup.
  - intros q H1 H2. apply list_elem_of_singleton in H2 as ->.
    apply intermediate_dirs_shorter in H1. lia.
  - apply NoDup_singleton.
Qed.

Lemma elem_of_chain (path q : pystr) :
  q ∈ intermediate_dirs path ++ [path] <-> q ∈ intermediate_dirs path \/ q = path.
Proof. now rewrite elem_of_app, list_elem_of_singleton. Qed.

(** A file below a directory is none of the directories made for it. *)
Lemma below_not_in_chain (path s : pystr) :
  s <> [] -> path ++ s ∉ intermediate_dirs path ++ [path].
Proof.
  intros Hs H. apply elem_of_chain in H as [H|H].
  - apply intermediate_dirs_shorter in H. rewrite length_app in H. lia.
  - symmetry in H. now apply (app_ne_self path s).
Qed.

(** The directories [os.makedirs] makes for some paths. *)
Example intermediate_dirs_examples :
  intermediate_dirs (py "out/pkg-md") = [py "out"] /\
  intermediate_dirs (py "/srv/docs/pkg-md") = [py "/srv"; py "/srv/docs"] /\
  intermediate_dirs (py "a//b/") = [py "a"] /\
  intermediate_dirs (py "pkg-md") = [].
Proof. repeat split. Qed.

Ltac run_step :=
  repeat first
    [ progress (unfold render_template, bind, get_template, open_w, render,
                  write, call, log, set_fs, raise, ret in * )
    | progress (cbn [fs denied cb_state trace] in * )
    | case_match
    | progress simplify_eq
    | congruence ].

Section Steps.

Context {NamespaceDeclaration Object CB : Type}.

Implicit Types (w : World NamespaceDeclaration CB).
Implicit Types (d : @Document NamespaceDeclaration).

Variable env : Environment NamespaceDeclaration Object.
Variable cb : Callback CB.

(** **** One document *)

Lemma render_template_denied name path vars w w' r :
  render_template env cb name path vars w = (w', r) -> denied w' = denied w.
Proof. intros H. run_step; reflexivity. Qed.

Lemma render_template_fs_other name path vars w w' r p :
  render_template env cb name path vars w = (w', r) ->
  p <> path -> fs w' !! p = fs w !! p.
Proof.
  intros H Hp. run_step;
    rewrite ?lookup_insert_ne by congruence; reflexivity.
Qed.

Lemma render_template_trace name path vars w w' r :
  render_template env cb name path vars w = (w', r) ->
  exists l, trace w' = trace w ++ l /\
            l `prefix_of` document_events (name, path, vars) /\
            (r = inr tt -> l = document_events (name, path, vars)).
Proof.
  intros H. unfold document_events, template_name. cbn [fst snd].
  run_step; rewrite <- ?app_assoc; cbn [app];
    eexists; (split; [reflexivity|]); split;
    try discriminate; try reflexivity;
    repeat first [apply prefix_nil | apply prefix_cons].
Qed.

Lemma render_template_ok name path vars w w' :
  render_template env cb name path vars w = (w', inr tt) ->
  exists text, rendered env (name, path, vars) text /\
               denied w path = false /\
               fs w' = <[path := File text]> (fs w).
Proof.
  intros H. unfold rendered, template_name. cbn [fst snd].
  run_step; eexists; (split; [eexists; repeat split; eassumption|]);
    (split; [assumption || reflexivity|]); now rewrite insert_insert_eq.
Qed.

(** Rendering again over its own output changes no file; only the
    callback can make it fail. *)
Lemma render_template_again name path vars text w w' r :
  rendered env (name, path, vars) text ->
  denied w path = false ->
  fs w !! path = Some (File text) ->
  render_template env cb name path vars w = (w', r) ->
  fs w' = fs w /\ r = from_option inl (inr tt) (cb path (cb_state w)).2.
Proof.
  intros (t & Ht & Hr & He) Hd Hf H. cbn [fst snd] in *.
  unfold template_name in *.
  run_step; rewrite ?insert_insert_eq;
    match goal with
    | H1 : ?f = inr ?a, H2 : ?f = inr ?b |- _ =>
        assert (a = b) by congruence; subst
    end;
    (split; [now apply insert_id|]);
    match goal with E : cb _ _ = _ |- _ => now rewrite E end.
Qed.

End Steps.

Section StepsMore.

Context {NamespaceDeclaration Object CB : Type}.

Implicit Types (w : World NamespaceDeclaration CB).

Variable env : Environment NamespaceDeclaration Object.
Variable cb : Callback CB.

(** The callback is applied to the path each time the trace says so, and
    is invoked for a document only when its file is complete. *)
Lemma render_template_calls name path vars w w' r :
  render_template env cb name path vars w = (w', r) ->
  exists l, trace w' = trace w ++ l /\
    cb_state w' = fold_left (fun s p => (cb p s).1) (callbacks l) (cb_state w) /\
    forall p, p ∈ callbacks l ->
      p = path /\
      exists text, rendered env (name, path, vars) text /\
                   fs w' !! path = Some (File text).
Proof.
  intros H. unfold rendered, template_name. cbn [fst snd].
  run_step; rewrite <- ?app_assoc; cbn [app];
    eexists; (split; [reflexivity|]); unfold callbacks; cbn;
    (split; [try match goal with E : cb _ _ = _ |- _ => rewrite E end;
             reflexivity|]);
    intros p Hp; try (now apply elem_of_nil in Hp);
    apply list_elem_of_singleton in Hp as ->; (split; [reflexivity|]);
    eexists; (split; [eexists; repeat split; eassumption|]);
    apply lookup_insert_eq.
Qed.

(** What [render_template] answers, read off the world it starts in:
    the first of its calls that raises decides. *)
Lemma render_template_result name path vars w :
  (render_template env cb name path vars w).2 =
  match loader env (template_name name) with
  | None => inl (TemplateNotFound (template_name name))
  | Some t =>
      if denied w path then inl (PermissionError path)
      else match fs w !! path with
           | Some Dir => inl (IsADirectoryError path)
           | _ =>
               match t (globals env) (filters env) vars with
               | inl e => inl e
               | inr text =>
                   if encodable text then
                     match (cb path (cb_state w)).2 with
                     | Some e => inl e
                     | None => inr tt
                     end
                   else inl UnicodeEncodeError
               end
           end
  end.
Proof.
  unfold template_name, render_template, get_template, open_w, render,
    write, call, log, set_fs, raise, ret, bind.
  cbn [fs denied cb_state trace].
  destruct (loader env _) as [t|]; [|reflexivity].
  cbn [fs denied cb_state trace].
  destruct (denied w path); [reflexivity|].
  destruct (fs w !! path) as [[|c]|]; try reflexivity;
    cbn [fs denied cb_state trace];
    destruct (t _ _ _) as [e|text]; try reflexivity;
    cbn [fs denied cb_state trace];
    destruct (encodable text); try reflexivity;
    cbn [fs denied cb_state trace];
    destruct (cb _ _) as [s [e|]]; reflexivity.
Qed.

(** No step removes a path or turns a directory into a file or a file
    into a directory. *)
Lemma render_template_kind name path vars w w' r p :
  render_template env cb name path vars w = (w', r) ->
  (fs w !! p = Some Dir -> fs w' !! p = Some Dir) /\
  (forall c, fs w !! p = Some (File c) -> exists c', fs w' !! p = Some (File c')).
Proof.
  intros H.
  run_step; (split; [intros Hp|intros ? Hp]);
    destruct (decide (p = path)) as [->|Hne]; simplify_map_eq; eauto.
Qed.

End StepsMore.

Section Directory.

Context {NamespaceDeclaration CB : Type}.

Implicit Types (w : World NamespaceDeclaration CB).

Variable cb : Callback CB.

(** **** The directory *)

(** What [make_chain] leaves alone: permissions, callback and trace, the
    paths outside the chain and every path that was there; all it does
    is to put directories where there was nothing. *)
Lemma make_chain_frame chain w w' (r : Exception + unit) :
  make_chain chain w = (w', r) ->
  denied w' = denied w /\ cb_state w' = cb_state w /\ trace w' = trace w /\
  (forall p, p ∉ chain -> fs w' !! p = fs w !! p) /\
  (forall p n, fs w !! p = Some n -> fs w' !! p = Some n) /\
  (forall p, fs w' !! p <> fs w !! p ->
             fs w !! p = None /\ fs w' !! p = Some Dir).
Proof.
  revert w. induction chain as [|q below IH]; intros w; cbn [make_chain].
  - intros [= <- <-]. repeat split; congruence.
  - destruct (fs w !! q) as [[|c]|] eqn:Hq.
    + intros H. destruct (IH _ H) as (Hd & Hc & Ht & Ho & Hk & Hn).
      repeat split; try assumption; try (now apply Hn).
      intros p Hp. apply Ho. rewrite not_elem_of_cons in Hp. tauto.
    + destruct below; intros [= <- <-]; repeat split; congruence.
    + destruct (denied w q) eqn:Hden.
      * intros [= <- <-]. repeat split; congruence.
      * unfold bind, set_fs. intros H.
        destruct (IH _ H) as (Hd & Hc & Ht & Ho & Hk & Hn).
        cbn [fs denied cb_state trace] in *.
        repeat split; try assumption.
        -- intros p Hp. rewrite not_elem_of_cons in Hp. destruct Hp as [Hpq Hp].
           rewrite (Ho _ Hp). now apply lookup_insert_ne.
        -- intros p n Hp. apply Hk. rewrite lookup_insert_ne; congruence.
        -- destruct (decide (p = q)) as [->|Hpq]; [assumption|].
           destruct (Hn p) as [Hx _];
             [now rewrite lookup_insert_ne by congruence|].
           now rewrite lookup_insert_ne in Hx by congruence.
        -- destruct (decide (p = q)) as [->|Hpq].
           ++ apply Hk, lookup_insert_eq.
           ++ destruct (Hn p) as [_ Hx];
                [now rewrite lookup_insert_ne by congruence|exact Hx].
Qed.

(** When the chain is made, its directories are all there. *)
Lemma make_chain_ok chain w w' :
  make_chain chain w = (w', inr tt) ->
  Forall (fun q => fs w' !! q = Some Dir) chain.
Proof.
  revert w. induction chain as [|q below IH]; intros w; cbn [make_chain];
    [constructor|].
  destruct (fs w !! q) as [[|c]|] eqn:Hq.
  - intros H. constructor; [|now apply (IH _ H)].
    destruct (make_chain_frame _ _ _ _ H) as (_ & _ & _ & _ & Hk & _).
    now apply Hk.
  - now destruct below.
  - destruct (denied w q); [discriminate|].
    unfold bind, set_fs. intros H. constructor; [|now apply (IH _ H)].
    destruct (make_chain_frame _ _ _ _ H) as (_ & _ & _ & _ & Hk & _).
    apply Hk. cbn [fs]. apply lookup_insert_eq.
Qed.

(** Over directories that are there, nothing is done. *)
Lemma make_chain_existing chain w :
  Forall (fun q => fs w !! q = Some Dir) chain ->
  make_chain chain w = (w, inr tt).
Proof.
  induction 1 as [|q below Hq _ IH]; [reflexivity|].
  cbn [make_chain]. now rewrite Hq.
Qed.

(** A file in the chain, or a missing directory that is refused, makes
    the chain fail. *)
Lemma make_chain_fails chain w q :
  q ∈ chain ->
  (exists c, fs w !! q = Some (File c)) \/
  (fs w !! q = None /\ denied w q = true) ->
  exists e, (make_chain chain w).2 = inl e /\
    ((exists a, a ∈ chain /\ (e = PermissionError a \/ e = NotADirectoryError a)) \/
     (exists a, last chain = Some a /\ e = FileExistsError a)).
Proof.
  revert w. induction chain as [|a below IH]; intros w Hin Hbad.
  { now apply elem_of_nil in Hin. }
  assert (Hnext : forall w1,
             fs w1 !! q = fs w !! q -> denied w1 = denied w -> q <> a ->
             exists e, (make_chain below w1).2 = inl e /\
               ((exists a0, a0 ∈ a :: below /\
                            (e = PermissionError a0 \/ e = NotADirectoryError a0)) \/
                (exists a0, last (a :: below) = Some a0 /\ e = FileExistsError a0))).
  { intros w1 Hf Hd Hne. apply elem_of_cons in Hin as [->|Hin]; [now destruct Hne|].
    destruct (IH w1 Hin) as (e & He & Hs).
    { rewrite Hf, Hd. exact Hbad. }
    exists e. split; [exact He|].
    destruct Hs as [(a0 & Ha0 & Hs)|(a0 & Ha0 & Hs)].
    - left. exists a0. split; [|exact Hs]. apply elem_of_cons. now right.
    - right. exists a0. split; [|exact Hs].
      destruct below; [discriminate Ha0|exact Ha0]. }
  cbn [make_chain]. destruct (fs w !! a) as [[|c]|] eqn:Ha.
  - apply Hnext; [reflexivity..|].
    intros ->. destruct Hbad as [[c Hc]|[Hc _]]; congruence.
  - destruct below as [|child below]; cbn [raise snd].
    + eexists. split; [reflexivity|]. right. now exists a.
    + eexists. split; [reflexivity|]. left. exists child. split; [|now right].
      apply elem_of_cons. right. apply elem_of_cons. now left.
  - destruct (denied w a) eqn:Hden; cbn [raise snd].
    + eexists. split; [reflexivity|]. left. exists a. split; [|now left].
      apply elem_of_cons. now left.
    + unfold bind, set_fs.
      assert (Hne : q <> a).
      { intros ->. destruct Hbad as [[c Hc]|[_ Hc]]; congruence. }
      apply Hnext; [|reflexivity|exact Hne].
      cbn [fs]. now apply lookup_insert_ne.
Qed.

Lemma os_makedirs_frame path w w' (r : Exception + unit) :
  os_makedirs path w = (w', r) ->
  denied w' = denied w /\ cb_state w' = cb_state w /\
  trace w' = trace w ++ [EvMakedirs path] /\
  (forall p, p ∉ intermediate_dirs path ++ [path] -> fs w' !! p = fs w !! p) /\
  (forall p n, fs w !! p = Some n -> fs w' !! p = Some n) /\
  (forall p, fs w' !! p <> fs w !! p ->
             fs w !! p = None /\ fs w' !! p = Some Dir) /\
  (r = inr tt ->
   Forall (fun q => fs w' !! q = Some Dir) (intermediate_dirs path ++ [path])).
Proof.
  unfold os_makedirs, bind, log. intros H.
  destruct (make_chain_frame _ _ _ _ H) as (Hd & Hc & Ht & Ho & Hk & Hn).
  cbn [fs denied cb_state trace] in *. repeat split; try assumption;
    try (now apply Hn).
  intros ->. exact (make_chain_ok _ _ _ H).
Qed.

Lemma os_makedirs_existing path w :
  Forall (fun q => fs w !! q = Some Dir) (intermediate_dirs path ++ [path]) ->
  fs (os_makedirs path w).1 = fs w /\ (os_makedirs path w).2 = inr tt.
Proof.
  intros H. unfold os_makedirs, bind, log.
  rewrite make_chain_existing by exact H. now split.
Qed.

Lemma create_dir_unfold a args w :
  create_dir_with_path_components cb a args w =
  match os_makedirs (os_path_join a args) w with
  | (w1, inl e) => (w1, inl e)
  | (w1, inr _) =>
      ({| fs := fs w1; denied := denied w1;
          cb_state := (cb (os_path_join a args) (cb_state w1)).1;
          trace := trace w1 ++ [EvCallback (os_path_join a args)] |},
       match (cb (os_path_join a args) (cb_state w1)).2 with
       | Some e => inl e
       | None => inr (os_path_join a args)
       end)
  end.
Proof.
  unfold create_dir_with_path_components, bind.
  destruct (os_makedirs _ w) as [w1 [e|[]]]; [reflexivity|].
  unfold call, bind, log, ret. cbn [fs denied cb_state trace].
  now destruct (cb _ _) as [s [e|]].
Qed.

Ltac dir_step H :=
  rewrite create_dir_unfold in H;
  match type of H with
  | context [os_makedirs ?p ?w] =>
      let E := fresh "E" in
      destruct (os_makedirs p w) as [? [?|[]]] eqn:E;
      destruct (os_makedirs_frame _ _ _ _ E) as (? & ? & ? & ? & ? & ? & ?);
      simplify_eq; cbn [fs denied cb_state trace] in *
  end.

Lemma create_dir_denied a args w w' r :
  create_dir_with_path_components cb a args w = (w', r) -> denied w' = denied w.
Proof. intros H. dir_step H; assumption. Qed.

Lemma create_dir_fs_other a args w w' r p :
  create_dir_with_path_components cb a args w = (w', r) ->
  p ∉ intermediate_dirs (os_path_join a args) ++ [os_path_join a args] ->
  fs w' !! p = fs w !! p.
Proof. intros H Hp. dir_step H; auto. Qed.

Lemma create_dir_fs_kept a args w w' r :
  create_dir_with_path_components cb a args w = (w', r) ->
  (forall p n, fs w !! p = Some n -> fs w' !! p = Some n) /\
  (forall p, fs w' !! p <> fs w !! p ->
             p ∈ intermediate_dirs (os_path_join a args) ++ [os_path_join a args] /\
             fs w !! p = None /\ fs w' !! p = Some Dir).
Proof.
  intros H. dir_step H; (split; [assumption|]); intros p Hp; (split; [|auto]);
    destruct (decide (p ∈ intermediate_dirs (os_path_join a args)
                          ++ [os_path_join a args])) as [|Hn]; try assumption;
    destruct Hp; auto.
Qed.

Lemma create_dir_trace a args w w' r :
  create_dir_with_path_components cb a args w = (w', r) ->
  exists l, trace w' = trace w ++ l /\
            l `prefix_of` [EvMakedirs (os_path_join a args);
                           EvCallback (os_path_join a args)] /\
            (forall p, r = inr p ->
               l = [EvMakedirs (os_path_join a args);
                    EvCallback (os_path_join a args)]).
Proof.
  intros H.
  dir_step H;
    match goal with Ht : trace _ = _ |- _ => rewrite Ht end;
    rewrite <- ?app_assoc; cbn [app];
    eexists; (split; [reflexivity|]);
    split; try (intros ? [=]); try reflexivity;
    repeat first [apply prefix_nil | apply prefix_cons].
Qed.

Lemma create_dir_ok a args w w' p :
  create_dir_with_path_components cb a args w = (w', inr p) ->
  p = os_path_join a args /\
  fs w' !! p = Some Dir /\
  Forall (fun q => fs w' !! q = Some Dir) (intermediate_dirs p).
Proof.
  intros H. dir_step H.
  destruct (cb _ _) as [s [e|]]; cbn [fst snd] in *; simplify_eq.
  match goal with Hall : _ -> Forall _ _ |- _ =>
    specialize (Hall eq_refl); apply Forall_app in Hall as [Hi Hl] end.
  rewrite Forall_singleton in Hl. repeat split; assumption.
Qed.

(** The callback is applied to the directory's path once the directory
    is there, and to nothing else. *)
Lemma create_dir_calls a args w w' r :
  create_dir_with_path_components cb a args w = (w', r) ->
  exists l, trace w' = trace w ++ l /\
    cb_state w' = fold_left (fun s p => (cb p s).1) (callbacks l) (cb_state w) /\
    forall p, p ∈ callbacks l ->
      p = os_path_join a args /\ fs w' !! p = Some Dir.
Proof.
  intros H.
  dir_step H;
    match goal with Ht : trace _ = _ |- _ => rewrite Ht end;
    rewrite <- ?app_assoc; cbn [app];
    eexists; (split; [reflexivity|]); unfold callbacks; cbn;
    (split; [congruence|]);
    intros p Hp; try (now apply elem_of_nil in Hp);
    apply list_elem_of_singleton in Hp as ->; (split; [reflexivity|]).
  match goal with Hall : _ -> Forall _ _ |- _ =>
    specialize (Hall eq_refl); apply Forall_app in Hall as [_ Hl] end.
  rewrite Forall_singleton in Hl. exact Hl.
Qed.

Lemma create_dir_kind a args w w' r p :
  create_dir_with_path_components cb a args w = (w', r) ->
  (fs w !! p = Some Dir -> fs w' !! p = Some Dir) /\
  (forall c, fs w !! p = Some (File c) -> exists c', fs w' !! p = Some (File c')).
Proof.
  intros H. destruct (create_dir_fs_kept _ _ _ _ _ H) as [Hk _].
  split; [now apply Hk|]. intros c Hc. exists c. now apply Hk.
Qed.

(** When the directory and the directories above it are already there,
    the step creates nothing; it applies the callback to the path all
    the same, and only the callback can make it fail. *)
Lemma create_dir_existing a args w :
  Forall (fun q => fs w !! q = Some Dir)
    (intermediate_dirs (os_path_join a args) ++ [os_path_join a args]) ->
  let r := create_dir_with_path_components cb a args w in
  fs r.1 = fs w /\
  denied r.1 = denied w /\
  cb_state r.1 = (cb (os_path_join a args) (cb_state w)).1 /\
  trace r.1 = trace w ++ [EvMakedirs (os_path_join a args);
                          EvCallback (os_path_join a args)] /\
  r.2 = match (cb (os_path_join a args) (cb_state w)).2 with
        | Some e => inl e
        | None => inr (os_path_join a args)
        end.
Proof.
  intros Hall. cbn zeta. rewrite create_dir_unfold.
  destruct (os_makedirs_existing _ _ Hall) as [Hfs Hr].
  destruct (os_makedirs _ w) as [w1 r1] eqn:E. cbn [fst snd] in Hfs, Hr. subst r1.
  destruct (os_makedirs_frame _ _ _ _ E) as (Hd & Hc & Ht & _).
  cbn [fst snd fs denied cb_state trace].
  now rewrite Hc, Ht, <- app_assoc.
Qed.

(** Directories that are there are passed over. *)
Lemma make_chain_skip done chain w :
  Forall (fun q => fs w !! q = Some Dir) done ->
  make_chain (done ++ chain) w = make_chain chain w.
Proof.
  induction 1 as [|q done Hq _ IH]; [reflexivity|].
  cbn [app make_chain]. now rewrite Hq.
Qed.

(** A chain that fails has not made its last directory. *)
Lemma make_chain_failed_last init x w w' e :
  x ∉ init ->
  make_chain (init ++ [x]) w = (w', inl e) ->
  fs w' !! x = fs w !! x.
Proof.
  revert w. induction init as [|a init IH]; intros w Hx; cbn [app make_chain].
  - destruct (fs w !! x) as [[|c]|] eqn:Hf;
      [discriminate|now intros [= <- <-]|].
    destruct (denied w x); [now intros [= <- <-]|discriminate].
  - rewrite not_elem_of_cons in Hx. destruct Hx as [Hxa Hx].
    destruct (fs w !! a) as [[|c]|].
    + now apply IH.
    + destruct (init ++ [x]); now intros [= <- <-].
    + destruct (denied w a); [now intros [= <- <-]|].
      unfold bind, set_fs. intros H. rewrite (IH _ Hx H). cbn [fs].
      now apply lookup_insert_ne.
Qed.

(** When a directory of the chain cannot be made, because a file stands
    there or the operating system refuses it, the directory step raises
    before the callback is applied. *)
Lemma create_dir_refused a args w q :
  q ∈ intermediate_dirs (os_path_join a args) ++ [os_path_join a args] ->
  (exists c, fs w !! q = Some (File c)) \/
  (fs w !! q = None /\ denied w q = true) ->
  exists w' e,
    create_dir_with_path_components cb a args w = (w', inl e) /\
    ((exists a0,
        a0 ∈ intermediate_dirs (os_path_join a args) ++ [os_path_join a args] /\
        (e = PermissionError a0 \/ e = NotADirectoryError a0)) \/
     e = FileExistsError (os_path_join a args)) /\
    cb_state w' = cb_state w /\
    trace w' = trace w ++ [EvMakedirs (os_path_join a args)] /\
    fs w' !! os_path_join a args = fs w !! os_path_join a args /\
    (Forall (fun q => fs w !! q = Some Dir)
       (intermediate_dirs (os_path_join a args)) ->
     fs w' = fs w /\
     e = match fs w !! os_path_join a args with
         | Some _ => FileExistsError (os_path_join a args)
         | None => PermissionError (os_path_join a args)
         end).
Proof.
  intros Hin Hbad. rewrite create_dir_unfold. unfold os_makedirs, bind, log.
  set (path := os_path_join a args) in *.
  set (w0 := {| fs := fs w; denied := denied w; cb_state := cb_state w;
                trace := trace w ++ [EvMakedirs path] |}).
  destruct (make_chain_fails (intermediate_dirs path ++ [path]) w0 q Hin Hbad)
    as (e & He & Hshape).
  destruct (make_chain (intermediate_dirs path ++ [path]) w0) as [w' r] eqn:Em.
  cbn [snd] in He. subst r. exists w', e. split; [reflexivity|].
  destruct (make_chain_frame _ _ _ _ Em) as (_ & Hc & Ht & _).
  split; [|split; [exact Hc|split; [exact Ht|split]]].
  - destruct Hshape as [Hs|(a0 & Hl & ->)]; [now left|right].
    rewrite last_snoc in Hl. now injection Hl as ->.
  - apply (make_chain_failed_last (intermediate_dirs path) path w0 w' e);
      [|exact Em].
    intros H. apply intermediate_dirs_shorter in H. lia.
  - intros Hall. rewrite (make_chain_skip _ _ w0 Hall) in Em.
    apply elem_of_chain in Hin as [Hin| ->].
    { rewrite Forall_forall in Hall. specialize (Hall _ Hin).
      destruct Hbad as [[c Hc']|[Hc' _]]; congruence. }
    cbn [make_chain] in Em. change (fs w0) with (fs w) in Em.
    change (denied w0) with (denied w) in Em.
    destruct Hbad as [[c Hf]|[Hf Hd]]; rewrite Hf in Em |- *.
    + injection Em as <- <-. now split.
    + rewrite Hd in Em. injection Em as <- <-. now split.
Qed.

End Directory.

Section Sequences.

Context {NamespaceDeclaration Object CB : Type}.

Implicit Types (w : World NamespaceDeclaration CB).
Implicit Types (d : @Document NamespaceDeclaration).

Variable env : Environment NamespaceDeclaration Object.
Variable cb : Callback CB.

(** **** Several documents *)

Lemma render_documents_cons d docs w :
  render_documents env cb (d :: docs) w =
  match render_template env cb d.1.1 d.1.2 d.2 w with
  | (w1, inr _) => render_documents env cb docs w1
  | (w1, inl e) => (w1, inl e)
  end.
Proof.
  unfold render_documents. cbn [for_each]. unfold bind.
  destruct (render_template _ _ _ _ _ w) as [w1 [e|[]]]; reflexivity.
Qed.

Lemma render_documents_denied docs w w' r :
  render_documents env cb docs w = (w', r) -> denied w' = denied w.
Proof.
  revert w. induction docs as [|d docs IH]; intros w.
  - now intros [= <- <-].
  - rewrite render_documents_cons.
    destruct (render_template _ _ _ _ _ w) as [w1 [e|[]]] eqn:E; intros H.
    + injection H as <- <-. eapply render_template_denied, E.
    + rewrite (IH _ H). eapply render_template_denied, E.
Qed.

Lemma render_documents_fs_other docs w w' r p :
  render_documents env cb docs w = (w', r) ->
  p ∉ map (fun d => d.1.2) docs -> fs w' !! p = fs w !! p.
Proof.
  revert w. induction docs as [|d docs IH]; intros w.
  - now intros [= <- <-].
  - rewrite render_documents_cons. cbn [map]. rewrite not_elem_of_cons.
    destruct (render_template _ _ _ _ _ w) as [w1 [e|[]]] eqn:E; intros H [Hp Hps].
    + injection H as <- <-. eapply render_template_fs_other; eassumption.
    + rewrite (IH _ H Hps). eapply render_template_fs_other; eassumption.
Qed.

Lemma render_documents_trace docs w w' r :
  render_documents env cb docs w = (w', r) ->
  exists l, trace w' = trace w ++ l /\
            l `prefix_of` concat (map document_events docs) /\
            (r = inr tt -> l = concat (map document_events docs)).
Proof.
  revert w. induction docs as [|d docs IH]; intros w.
  - intros [= <- <-]. exists []. now rewrite app_nil_r.
  - rewrite render_documents_cons. cbn [map concat].
    destruct d as [[name path] vars]. cbn [fst snd].
    destruct (render_template _ _ _ _ _ w) as [w1 [e|[]]] eqn:E; intros H;
      destruct (render_template_trace _ _ _ _ _ _ _ _ E) as (l1 & Ht & Hp & Hok).
    + injection H as <- <-. exists l1. repeat split; [assumption| |discriminate].
      now apply prefix_app_r.
    + destruct (IH _ H) as (l2 & Ht2 & Hp2 & Hok2).
      rewrite (Hok eq_refl) in Ht.
      exists (document_events (name, path, vars) ++ l2). repeat split.
      * now rewrite Ht2, Ht, app_assoc.
      * now apply prefix_app.
      * intros ->. now rewrite Hok2.
Qed.

(** After a complete rendering every document is on disk with the text
    its template renders to. *)
Lemma render_documents_ok docs w w' :
  render_documents env cb docs w = (w', inr tt) ->
  NoDup (map (fun d => d.1.2) docs) ->
  Forall (fun d => exists text, rendered env d text /\
                                denied w d.1.2 = false /\
                                fs w' !! d.1.2 = Some (File text)) docs.
Proof.
  revert w. induction docs as [|d docs IH]; intros w; [constructor|].
  rewrite render_documents_cons. cbn [map]. rewrite NoDup_cons.
  destruct d as [[name path] vars]. cbn [fst snd].
  destruct (render_template _ _ _ _ _ w) as [w1 [e|[]]] eqn:E; [discriminate|].
  intros H [Hp Hnd].
  destruct (render_template_ok _ _ _ _ _ _ _ E) as (text & Hr & Hd & Hfs).
  constructor.
  - exists text. repeat split; [exact Hr|exact Hd|].
    cbn [fst snd]. rewrite (render_documents_fs_other _ _ _ _ _ H Hp).
    now rewrite Hfs, lookup_insert_eq.
  - rewrite <- (render_template_denied _ _ _ _ _ _ _ _ E). now apply IH.
Qed.

(** Rendering the documents again over their own output leaves the
    file system as it is, and fails only where the callback raises. *)
Lemma render_documents_again docs w w' r :
  Forall (fun d => exists text, rendered env d text /\
                                denied w d.1.2 = false /\
                                fs w !! d.1.2 = Some (File text)) docs ->
  render_documents env cb docs w = (w', r) ->
  fs w' = fs w /\ ((forall p s, (cb p s).2 = None) -> r = inr tt).
Proof.
  intros Hall. revert w Hall. induction docs as [|d docs IH]; intros w Hall.
  - now intros [= <- <-].
  - rewrite render_documents_cons.
    apply Forall_cons in Hall as [(text & Hr & Hd & Hf) Hall].
    destruct d as [[name path] vars]. cbn [fst snd] in *.
    destruct (render_template _ _ _ _ _ w) as [w1 r1] eqn:E.
    destruct (render_template_again _ _ _ _ _ _ _ _ _ Hr Hd Hf E) as [Hfs Hr1].
    destruct r1 as [e|[]].
    + intros [= <- <-]. split; [assumption|].
      intros Hcb. now rewrite Hcb in Hr1.
    + intros H. rewrite <- Hfs. apply IH; [|assumption].
      rewrite (render_template_denied _ _ _ _ _ _ _ _ E), Hfs. exact Hall.
Qed.

(** A failure is the failure of one document: those before it were
    rendered completely, and the world is the one that document left. *)
Lemma render_documents_fail docs w w' e :
  render_documents env cb docs w = (w', inl e) ->
  exists done d rest w1,
    docs = done ++ d :: rest /\
    render_documents env cb done w = (w1, inr tt) /\
    render_template env cb d.1.1 d.1.2 d.2 w1 = (w', inl e).
Proof.
  revert w. induction docs as [|d docs IH]; intros w; [discriminate|].
  rewrite render_documents_cons.
  destruct (render_template _ _ _ _ _ w) as [w1 [e1|[]]] eqn:E; intros H.
  - injection H as <- <-. now exists [], d, docs, w.
  - destruct (IH _ H) as (done & d' & rest & w2 & -> & Hdone & Hfail).
    exists (d :: done), d', rest, w2. repeat split; [|assumption].
    now rewrite render_documents_cons, E.
Qed.

(** The callback is applied to the paths the trace reports, in this
    order, and each reported document is complete on disk. *)
Lemma render_documents_calls docs w w' r :
  render_documents env cb docs w = (w', r) ->
  NoDup (map (fun d => d.1.2) docs) ->
  exists l, trace w' = trace w ++ l /\
    cb_state w' = fold_left (fun s p => (cb p s).1) (callbacks l) (cb_state w) /\
    forall p, p ∈ callbacks l ->
      exists d text, d ∈ docs /\ p = d.1.2 /\ rendered env d text /\
                     fs w' !! p = Some (File text).
Proof.
  revert w. induction docs as [|d docs IH]; intros w.
  - intros [= <- <-] _. exists []. rewrite app_nil_r. repeat split.
    intros p Hp. now apply elem_of_nil in Hp.
  - rewrite render_documents_cons. cbn [map]. rewrite NoDup_cons.
    destruct d as [[name path] vars]. cbn [fst snd].
    destruct (render_template _ _ _ _ _ w) as [w1 r1] eqn:E.
    destruct (render_template_calls _ _ _ _ _ _ _ _ E) as (l1 & Ht1 & Hc1 & Hl1).
    destruct r1 as [e|[]]; intros H [Hp Hnd].
    + injection H as <- <-. exists l1. repeat split; [assumption..|].
      intros p Hin. destruct (Hl1 _ Hin) as (-> & text & Hr & Hf).
      exists (name, path, vars), text. repeat split; try assumption.
      apply elem_of_cons. now left.
    + destruct (IH _ H Hnd) as (l2 & Ht2 & Hc2 & Hl2).
      exists (l1 ++ l2). split; [now rewrite Ht2, Ht1, app_assoc|].
      split.
      { unfold callbacks in *. now rewrite omap_app, fold_left_app, <- Hc1. }
      intros p Hin. unfold callbacks in Hin. rewrite omap_app in Hin.
      apply elem_of_app in Hin as [Hin|Hin].
      * destruct (Hl1 _ Hin) as (-> & text & Hr & Hf).
        exists (name, path, vars), text. repeat split; try assumption.
        -- apply elem_of_cons. now left.
        -- cbn [fst snd]. now rewrite (render_documents_fs_other _ _ _ _ _ H Hp).
      * destruct (Hl2 _ Hin) as (d & text & Hd & -> & Hr & Hf).
        exists d, text. repeat split; try assumption.
        apply elem_of_cons. now right.
Qed.

Lemma render_documents_kind docs w w' r p :
  render_documents env cb docs w = (w', r) ->
  (fs w !! p = Some Dir -> fs w' !! p = Some Dir) /\
  (forall c, fs w !! p = Some (File c) -> exists c', fs w' !! p = Some (File c')).
Proof.
  revert w. induction docs as [|d docs IH]; intros w.
  - intros [= <- <-]. eauto.
  - rewrite render_documents_cons.
    destruct (render_template _ _ _ _ _ w) as [w1 r1] eqn:E.
    destruct (render_template_kind _ _ _ _ _ _ _ _ p E) as [Hd Hf].
    destruct r1 as [e|[]]; intros H.
    + injection H as <- <-. now split.
    + destruct (IH _ H) as [Hd2 Hf2]. split; [auto|].
      intros c Hc. destruct (Hf _ Hc) as [c1 Hc1]. eauto.
Qed.

(** Directories are not touched by the rendering. *)
Lemma render_documents_dirs docs w w' r p :
  render_documents env cb docs w = (w', r) ->
  fs w !! p = Some Dir -> fs w' !! p = Some Dir.
Proof. intros H. now apply (render_documents_kind _ _ _ _ p H). Qed.

End Sequences.

(** *** [generate] as directory and documents *)

Lemma traits_ne_specifications : py "specifications" <> py "traits".
Proof. discriminate. Qed.

Section Generate.

Context {NamespaceDeclaration Object Logger CB : Type}.

Implicit Types (w : World NamespaceDeclaration CB).

Variable jinja2 : Jinja2 NamespaceDeclaration Object.
Variable package_declaration : PackageDeclaration NamespaceDeclaration.
Variable globals_ : gmap pystr Object.
Variable output_directory : pystr.
Variable creation_callback : Callback CB.
Variable logger : Logger.

Lemma generate_unfold w :
  generate jinja2 package_declaration globals_ output_directory
    creation_callback logger w =
  match create_dir_with_path_components creation_callback output_directory
          [id package_declaration ++ py "-md"] w with
  | (w1, inr output_dir_path) =>
      render_documents (_create_jinja_env jinja2 globals_ logger)
        creation_callback (documents package_declaration output_dir_path) w1
  | (w1, inl e) => (w1, inl e)
  end.
Proof.
  unfold generate. unfold bind at 1.
  destruct (create_dir_with_path_components _ _ _ w) as [w1 [e|dir]];
    [reflexivity|].
  unfold documents, listing, render_documents, getattr_or_none.
  cbn [for_each].
  destruct (decide (py "traits" = py "traits")) as [_|C]; [|now destruct C].
  destruct (decide (py "specifications" = py "traits")) as [C|_];
    [discriminate C|].
  destruct (decide (py "specifications" = py "specifications")) as [_|C];
    [|now destruct C].
  unfold index.
  destruct package_declaration as [i [[|t ts]|] [[|s ss]|]].
  all: repeat (repeat first
                 [ progress (unfold bind, ret)
                 | progress (cbn [truthy traits specifications default
                                  from_option to_value app fst snd
                                  id Datatypes.id for_each]) ];
               match goal with
               | |- context [render_template ?e ?c ?n ?p ?v ?w] =>
                   destruct (render_template e c n p v w) as [? [?|[]]]
               end).
  all: reflexivity.
Qed.

End Generate.

(** *** The documents of a package and their paths *)

Section Paths.

Context {NamespaceDeclaration : Type}.

Variable package_declaration : PackageDeclaration NamespaceDeclaration.
Variable output_directory : pystr.

Local Abbreviation dir := (output_dir package_declaration output_directory).

Lemma getattr_traits :
  getattr_or_none package_declaration (py "traits") = traits package_declaration.
Proof.
  unfold getattr_or_none.
  now destruct (decide (py "traits" = py "traits")) as [_|C]; [|destruct C].
Qed.

Lemma getattr_specifications :
  getattr_or_none package_declaration (py "specifications")
  = specifications package_declaration.
Proof.
  unfold getattr_or_none.
  destruct (decide (py "specifications" = py "traits")) as [C|_];
    [discriminate C|].
  now destruct (decide (py "specifications" = py "specifications")) as [_|C];
    [|destruct C].
Qed.

Lemma truthy_iff (namespaces : option (list NamespaceDeclaration)) :
  truthy namespaces = true <-> exists n ns, namespaces = Some (n :: ns).
Proof.
  destruct namespaces as [[|n ns]|]; simpl; split;
    try discriminate; try (now intros (? & ? & [=])); eauto.
Qed.


(** The paths of the documents, in the order of rendering. *)
Lemma documents_paths :
  map (fun d => d.1.2) (documents package_declaration dir) =
  (if truthy (traits package_declaration)
   then [os_path_join dir [py "traits.md"]] else [])
  ++ (if truthy (specifications package_declaration)
      then [os_path_join dir [py "specifications.md"]] else [])
  ++ [os_path_join dir [py "index.md"]].
Proof.
  unfold documents, listing. rewrite getattr_traits, getattr_specifications.
  now destruct (truthy (traits _)), (truthy (specifications _)).
Qed.

Lemma documents_names :
  map (fun d => template_name d.1.1) (documents package_declaration dir) =
  (if truthy (traits package_declaration)
   then [template_name (py "traits")] else [])
  ++ (if truthy (specifications package_declaration)
      then [template_name (py "specifications")] else [])
  ++ [template_name (py "index")].
Proof.
  unfold documents, listing. rewrite getattr_traits, getattr_specifications.
  now destruct (truthy (traits _)), (truthy (specifications _)).
Qed.

(** The directory and the three files below it are four different paths. *)
Lemma output_paths_distinct :
  NoDup [ dir;
          os_path_join dir [py "traits.md"];
          os_path_join dir [py "specifications.md"];
          os_path_join dir [py "index.md"] ].
Proof.
  destruct (output_dir_shape package_declaration output_directory) as [x ->].
  rewrite !join_below by reflexivity.
  repeat constructor; rewrite ?not_elem_of_cons; repeat split;
    try apply not_elem_of_nil;
    try (apply app_ne_self; discriminate);
    intros E; apply app_inv_head in E; discriminate E.
Qed.

Lemma documents_paths_distinct :
  NoDup (dir :: map (fun d => d.1.2) (documents package_declaration dir)).
Proof.
  rewrite documents_paths. pose proof output_paths_distinct as H.
  destruct (truthy (traits _)), (truthy (specifications _)); cbn [app].
  - exact H.
  - eapply sublist_NoDup; try exact H.
    now apply sublist_skip, sublist_skip, sublist_cons, sublist_skip.
  - eapply sublist_NoDup; try exact H.
    now apply sublist_skip, sublist_cons, sublist_skip, sublist_skip.
  - eapply sublist_NoDup; try exact H.
    now apply sublist_skip, sublist_cons, sublist_cons, sublist_skip.
Qed.

(** The files are written below the directory, none of them at the
    directory or at a directory above it. *)
Lemma file_below_dir (name : pystr) :
  starts_with [SLASH] name = false ->
  os_path_join dir [name] = dir ++ SLASH :: name.
Proof.
  intros Hn.
  destruct (output_dir_shape package_declaration output_directory) as [x ->].
  now apply join_below.
Qed.

Lemma documents_outside_chain (p : pystr) :
  p ∈ map (fun d => d.1.2) (documents package_declaration dir) ->
  p ∉ intermediate_dirs dir ++ [dir].
Proof.
  intros H. rewrite documents_paths, !elem_of_app in H.
  destruct H as [H|[H|H]];
    [destruct (truthy (traits _)); [|now apply elem_of_nil in H]
    |destruct (truthy (specifications _)); [|now apply elem_of_nil in H]
    |];
    apply list_elem_of_singleton in H as ->;
    rewrite file_below_dir by reflexivity;
    now apply below_not_in_chain.
Qed.


(** What the calls of a complete run are made of. *)
Lemma callbacks_documents (docs : list (@Document NamespaceDeclaration)) :
  callbacks (concat (map document_events docs)) = map (fun d => d.1.2) docs.
Proof.
  unfold callbacks, opened, lookups, renders.
  induction docs as [|d docs IH]; [reflexivity|]. cbn in *. now f_equal.
Qed.

Lemma opened_documents (docs : list (@Document NamespaceDeclaration)) :
  opened (concat (map document_events docs)) = map (fun d => d.1.2) docs.
Proof.
  unfold callbacks, opened, lookups, renders.
  induction docs as [|d docs IH]; [reflexivity|]. cbn in *. now f_equal.
Qed.

Lemma lookups_documents (docs : list (@Document NamespaceDeclaration)) :
  lookups (concat (map document_events docs))
  = map (fun d => template_name d.1.1) docs.
Proof.
  unfold callbacks, opened, lookups, renders.
  induction docs as [|d docs IH]; [reflexivity|]. cbn in *. now f_equal.
Qed.

Lemma renders_documents (docs : list (@Document NamespaceDeclaration)) :
  renders (concat (map document_events docs))
  = map (fun d => (template_name d.1.1, d.2)) docs.
Proof.
  unfold callbacks, opened, lookups, renders.
  induction docs as [|d docs IH]; [reflexivity|]. cbn in *. now f_equal.
Qed.

Lemma elem_of_paths (d : @Document NamespaceDeclaration)
    (l : list (@Document NamespaceDeclaration)) :
  d ∈ l -> d.1.2 ∈ map (fun d => d.1.2) l.
Proof.
  rewrite !list_elem_of_In. apply (in_map (fun d : Document => d.1.2)).
Qed.

Lemma omap_prefix {A B} (f : A -> option B) (l k : list A) :
  l `prefix_of` k -> omap f l `prefix_of` omap f k.
Proof. intros [t ->]. rewrite omap_app. now exists (omap f t). Qed.

Lemma elem_of_prefix {A} (l k : list A) (x : A) :
  l `prefix_of` k -> x ∈ l -> x ∈ k.
Proof. intros [t ->] H. apply elem_of_app. now left. Qed.

End Paths.

(** *** Runs of [generate] *)

Section Runs.

Context {NamespaceDeclaration Object Logger CB : Type}.

Implicit Types (w : World NamespaceDeclaration CB).

Variable jinja2 : Jinja2 NamespaceDeclaration Object.
Variable package_declaration : PackageDeclaration NamespaceDeclaration.
Variable globals_ : gmap pystr Object.
Variable output_directory : pystr.
Variable creation_callback : Callback CB.
Variable logger : Logger.

Local Abbreviation run :=
  (generate jinja2 package_declaration globals_ output_directory
     creation_callback logger).
Local Abbreviation env := (_create_jinja_env jinja2 globals_ logger).
Local Abbreviation dir := (output_dir package_declaration output_directory).
Local Abbreviation docs := (documents package_declaration dir).

(** Whatever the outcome: the permissions stay, the file system changes
    only at the directory, at the directories above it and at the
    documents' paths, and the calls made are an initial part of the
    calls of a complete run, all of them when the run completes. *)
Lemma generate_run w w' r :
  run w = (w', r) ->
  denied w' = denied w /\
  (forall p, p ∉ intermediate_dirs dir ++ [dir] ->
             p ∉ map (fun d => d.1.2) docs ->
             fs w' !! p = fs w !! p) /\
  exists evs, trace w' = trace w ++ evs /\
              evs `prefix_of` expected_trace package_declaration output_directory /\
              (r = inr tt ->
               evs = expected_trace package_declaration output_directory).
Proof.
  rewrite generate_unfold. unfold expected_trace.
  change (os_path_join output_directory [id package_declaration ++ py "-md"])
    with dir in *.
  destruct (create_dir_with_path_components _ _ _ w) as [w1 [e|p]] eqn:E.
  - intros [= <- <-].
    destruct (create_dir_trace _ _ _ _ _ _ E) as (l & Ht & Hp & _).
    repeat split.
    + eapply create_dir_denied, E.
    + intros p Hp1 _. eapply create_dir_fs_other; [exact E|exact Hp1].
    + exists l. repeat split; [assumption| |discriminate].
      destruct Hp as [k Hk]. exists (k ++ concat (map document_events docs)).
      change (EvMakedirs dir :: EvCallback dir :: concat (map document_events docs))
        with ([EvMakedirs dir; EvCallback dir] ++ concat (map document_events docs)).
      change (os_path_join output_directory [id package_declaration ++ py "-md"])
        with dir in Hk.
      now rewrite Hk, <- app_assoc.
  - destruct (create_dir_ok _ _ _ _ _ _ E) as (-> & _ & _).
    change (os_path_join output_directory [id package_declaration ++ py "-md"])
      with dir in *.
    destruct (create_dir_trace _ _ _ _ _ _ E) as (l & Ht & _ & Hl).
    specialize (Hl _ eq_refl). subst l.
    intros H. repeat split.
    + rewrite (render_documents_denied _ _ _ _ _ _ H).
      eapply create_dir_denied, E.
    + intros p Hp1 Hp2. rewrite (render_documents_fs_other _ _ _ _ _ _ _ H Hp2).
      eapply create_dir_fs_other; [exact E|exact Hp1].
    + destruct (render_documents_trace _ _ _ _ _ _ H) as (l2 & Ht2 & Hp2 & Hok2).
      exists ([EvMakedirs dir; EvCallback dir] ++ l2). repeat split.
      * now rewrite Ht2, Ht, <- app_assoc.
      * now apply (prefix_app [EvMakedirs dir; EvCallback dir]).
      * intros Hr. now rewrite (Hok2 Hr).
Qed.

(** After a complete run the directory and the directories above it are
    there and every document is on disk with the text its template
    renders to. *)
Lemma generate_ok w w' :
  run w = (w', inr tt) ->
  Forall (fun q => fs w' !! q = Some Dir) (intermediate_dirs dir ++ [dir]) /\
  fs w' !! dir = Some Dir /\
  Forall (fun d => exists text, rendered env d text /\
                                denied w d.1.2 = false /\
                                fs w' !! d.1.2 = Some (File text)) docs.
Proof.
  rewrite generate_unfold.
  destruct (create_dir_with_path_components _ _ _ w) as [w1 [e|p]] eqn:E;
    [discriminate|].
  destruct (create_dir_ok _ _ _ _ _ _ E) as (-> & Hf & Hi).
  change (os_path_join output_directory [id package_declaration ++ py "-md"])
    with dir in *.
  pose proof (documents_paths_distinct package_declaration output_directory) as Hnd.
  apply NoDup_cons in Hnd as [Hdir Hnd].
  intros H.
  assert (Hdirs : Forall (fun q => fs w' !! q = Some Dir)
                    (intermediate_dirs dir ++ [dir])).
  { apply Forall_app. split.
    - eapply Forall_impl; [exact Hi|]. intros q Hq.
      exact (render_documents_dirs _ _ _ _ _ _ _ H Hq).
    - apply Forall_singleton.
      exact (render_documents_dirs _ _ _ _ _ _ _ H Hf). }
  repeat split; [exact Hdirs| |].
  - exact (render_documents_dirs _ _ _ _ _ _ _ H Hf).
  - rewrite <- (create_dir_denied _ _ _ _ _ _ E).
    now apply (render_documents_ok _ _ _ _ _ H).
Qed.

(** Whatever the outcome, the callback is applied to the paths the trace
    reports, in this order, and every reported path is complete at the
    end: the directory as a directory, a document with its text. *)
Lemma generate_calls w :
  exists evs,
    trace (run w).1 = trace w ++ evs /\
    cb_state (run w).1
    = fold_left (fun s p => (creation_callback p s).1) (callbacks evs)
        (cb_state w) /\
    forall p, p ∈ callbacks evs ->
      (p = dir /\ fs (run w).1 !! p = Some Dir) \/
      (exists d text,
         d ∈ docs /\ p = d.1.2 /\ rendered env d text /\
         fs (run w).1 !! p = Some (File text)).
Proof.
  rewrite generate_unfold.
  destruct (create_dir_with_path_components _ _ _ w) as [w1 r1] eqn:E.
  destruct (create_dir_calls _ _ _ _ _ _ E) as (l1 & Ht1 & Hc1 & Hl1).
  change (os_path_join output_directory [id package_declaration ++ py "-md"])
    with dir in *.
  destruct r1 as [e|p1]; cbn [fst snd].
  - exists l1. repeat split; [assumption..|].
    intros p Hp. left. now apply Hl1.
  - destruct (create_dir_ok _ _ _ _ _ _ E) as (-> & _ & _).
    change (os_path_join output_directory [id package_declaration ++ py "-md"])
      with dir in *.
    destruct (render_documents env creation_callback docs w1) as [w2 r2] eqn:Er.
    pose proof (documents_paths_distinct package_declaration output_directory)
      as Hnd.
    apply NoDup_cons in Hnd as [Hdir Hnd].
    destruct (render_documents_calls _ _ _ _ _ _ Er Hnd) as (l2 & Ht2 & Hc2 & Hl2).
    exists (l1 ++ l2). cbn [fst snd].
    split; [now rewrite Ht2, Ht1, app_assoc|]. split.
    { unfold callbacks in *. now rewrite omap_app, fold_left_app, <- Hc1. }
    intros p Hp. unfold callbacks in Hp. rewrite omap_app in Hp.
    apply elem_of_app in Hp as [Hp|Hp].
    + left. destruct (Hl1 _ Hp) as [-> Hf]. split; [reflexivity|].
      exact (render_documents_dirs _ _ _ _ _ _ _ Er Hf).
    + right. now apply Hl2.
Qed.


(** The calls of a run are determined by its trace. *)
Lemma trace_suffix_unique w (l1 l2 : list (Event NamespaceDeclaration)) :
  trace w ++ l1 = trace w ++ l2 -> l1 = l2.
Proof. apply app_inv_head. Qed.

End Runs.

(** *** The calls of a complete run *)

Section Expected.

Context {NamespaceDeclaration : Type}.

Variable package_declaration : PackageDeclaration NamespaceDeclaration.
Variable output_directory : pystr.

Local Abbreviation dir := (output_dir package_declaration output_directory).
Local Abbreviation docs := (documents package_declaration dir).

Lemma callbacks_expected :
  callbacks (expected_trace package_declaration output_directory)
  = dir :: map (fun d => d.1.2) docs.
Proof.
  unfold expected_trace. rewrite <- callbacks_documents. reflexivity.
Qed.

Lemma opened_expected :
  opened (expected_trace package_declaration output_directory)
  = map (fun d => d.1.2) docs.
Proof.
  unfold expected_trace. rewrite <- opened_documents. reflexivity.
Qed.

Lemma lookups_expected :
  lookups (expected_trace package_declaration output_directory)
  = map (fun d => template_name d.1.1) docs.
Proof.
  unfold expected_trace. rewrite <- lookups_documents. reflexivity.
Qed.

Lemma renders_expected :
  renders (expected_trace package_declaration output_directory)
  = map (fun d => (template_name d.1.1, d.2)) docs.
Proof.
  unfold expected_trace. rewrite <- renders_documents. reflexivity.
Qed.

Lemma output_paths_ne :
  os_path_join dir [py "traits.md"] <> os_path_join dir [py "specifications.md"] /\
  os_path_join dir [py "traits.md"] <> os_path_join dir [py "index.md"] /\
  os_path_join dir [py "specifications.md"] <> os_path_join dir [py "index.md"].
Proof.
  pose proof (output_paths_distinct package_declaration output_directory) as H.
  apply NoDup_cons in H as [_ H].
  apply NoDup_cons in H as [H1 H]. apply NoDup_cons in H as [H2 _].
  rewrite !not_elem_of_cons in H1. rewrite !not_elem_of_cons in H2.
  destruct H1 as (? & ? & _), H2 as (? & _). now repeat split.
Qed.

(** A path among the documents' paths is one of the three files, the
    listings only for a kind that is present and not empty. *)
Lemma elem_of_documents_paths (p : pystr) :
  p ∈ map (fun d => d.1.2) docs <->
  p = os_path_join dir [py "index.md"] \/
  (p = os_path_join dir [py "traits.md"] /\
   truthy (traits package_declaration) = true) \/
  (p = os_path_join dir [py "specifications.md"] /\
   truthy (specifications package_declaration) = true).
Proof.
  rewrite documents_paths.
  destruct (truthy (traits _)), (truthy (specifications _)); cbn [app];
    rewrite ?elem_of_cons, ?elem_of_nil; intuition congruence.
Qed.

Lemma elem_of_documents_names (n : pystr) :
  n ∈ map (fun d => template_name d.1.1) docs <->
  n = template_name (py "index") \/
  (n = template_name (py "traits") /\
   truthy (traits package_declaration) = true) \/
  (n = template_name (py "specifications") /\
   truthy (specifications package_declaration) = true).
Proof.
  rewrite documents_names.
  destruct (truthy (traits _)), (truthy (specifications _)); cbn [app];
    rewrite ?elem_of_cons, ?elem_of_nil; intuition congruence.
Qed.


End Expected.

(** *** The properties of [generate] *)

Section Claims.

Context {NamespaceDeclaration Object Logger CB : Type}.

Implicit Types (w : World NamespaceDeclaration CB).

Variable jinja2 : Jinja2 NamespaceDeclaration Object.
Variable package_declaration : PackageDeclaration NamespaceDeclaration.
Variable globals_ : gmap pystr Object.
Variable output_directory : pystr.
Variable creation_callback : Callback CB.
Variable logger : Logger.

Local Abbreviation run :=
  (generate jinja2 package_declaration globals_ output_directory
     creation_callback logger).
Local Abbreviation env := (_create_jinja_env jinja2 globals_ logger).
Local Abbreviation dir := (output_dir package_declaration output_directory).
Local Abbreviation docs := (documents package_declaration dir).
Local Abbreviation traits_md := (os_path_join dir [py "traits.md"]).
Local Abbreviation specifications_md :=
  (os_path_join dir [py "specifications.md"]).
Local Abbreviation index_md := (os_path_join dir [py "index.md"]).

(** C1: a call of [generate] that returns has rendered traits.md if and
    only if the [traits] attribute is present and not empty, likewise
    specifications.md for [specifications], and index.md in every case,
    last: the files opened and the templates rendered are these, in
    this order, and each of these files holds the text its template
    renders to with the document's variables.  Whatever the outcome of
    the call, for a kind that is absent or empty the listing's template
    is not looked up, its file is not opened and what is at its path
    stays as it was. *)
Theorem listings_rendered_iff_nonempty w :
  exists evs,
    trace (run w).1 = trace w ++ evs /\
    (truthy (traits package_declaration) = false ->
     (traits_md ∉ opened evs) /\
     (template_name (py "traits") ∉ lookups evs) /\
     fs (run w).1 !! traits_md = fs w !! traits_md) /\
    (truthy (specifications package_declaration) = false ->
     (specifications_md ∉ opened evs) /\
     (template_name (py "specifications") ∉ lookups evs) /\
     fs (run w).1 !! specifications_md = fs w !! specifications_md) /\
    ((run w).2 = inr tt ->
     opened evs =
       (if truthy (traits package_declaration) then [traits_md] else [])
       ++ (if truthy (specifications package_declaration)
           then [specifications_md] else [])
       ++ [index_md] /\
     (renders evs).*1 =
       (if truthy (traits package_declaration)
        then [template_name (py "traits")] else [])
       ++ (if truthy (specifications package_declaration)
           then [template_name (py "specifications")] else [])
       ++ [template_name (py "index")] /\
     (traits_md ∈ opened evs <->
      exists n ns, traits package_declaration = Some (n :: ns)) /\
     (specifications_md ∈ opened evs <->
      exists n ns, specifications package_declaration = Some (n :: ns)) /\
     last (opened evs) = Some index_md /\
     (forall n ns,
        traits package_declaration = Some (n :: ns) ->
        exists text,
          rendered env
            (py "traits", traits_md,
             {[ py "package" := VPackage package_declaration;
                py "namespaces" := VList (n :: ns) ]}) text /\
          fs (run w).1 !! traits_md = Some (File text)) /\
     (forall n ns,
        specifications package_declaration = Some (n :: ns) ->
        exists text,
          rendered env
            (py "specifications", specifications_md,
             {[ py "package" := VPackage package_declaration;
                py "namespaces" := VList (n :: ns) ]}) text /\
          fs (run w).1 !! specifications_md = Some (File text)) /\
     (exists text,
        rendered env
          (py "index", index_md,
           {[ py "package" := VPackage package_declaration;
              py "trait_namespaces" :=
                VList (default [] (traits package_declaration));
              py "specification_namespaces" :=
                VList (default [] (specifications package_declaration)) ]})
          text /\
        fs (run w).1 !! index_md = Some (File text))).
Proof.
  destruct (run w) as [w' r] eqn:E. cbn [fst snd].
  destruct (generate_run _ _ _ _ _ _ _ _ _ E) as (_ & Hfs & evs & Ht & Hp & Hev).
  exists evs. split; [assumption|].
  pose proof (output_paths_ne package_declaration output_directory)
    as (Hts & Hti & Hsi).
  assert (Hopen : forall p, p ∈ opened evs -> p ∈ map (fun d => d.1.2) docs).
  { intros p H. apply (elem_of_prefix _ _ _ (omap_prefix _ _ _ Hp)) in H.
    fold (opened (expected_trace package_declaration output_directory)) in H.
    now rewrite opened_expected in H. }
  assert (Hlook : forall n, n ∈ lookups evs ->
                            n ∈ map (fun d => template_name d.1.1) docs).
  { intros n H. apply (elem_of_prefix _ _ _ (omap_prefix _ _ _ Hp)) in H.
    fold (lookups (expected_trace package_declaration output_directory)) in H.
    now rewrite lookups_expected in H. }
  split; [|split].
  - intros Hn. repeat split.
    + intros H. apply Hopen, elem_of_documents_paths in H. intuition congruence.
    + intros H. apply Hlook, elem_of_documents_names in H.
      destruct H as [H|[[_ H]|[H _]]]; [discriminate H|congruence|discriminate H].
    + apply Hfs.
      * rewrite file_below_dir by reflexivity. now apply below_not_in_chain.
      * rewrite elem_of_documents_paths. intuition congruence.
  - intros Hn. repeat split.
    + intros H. apply Hopen, elem_of_documents_paths in H. intuition congruence.
    + intros H. apply Hlook, elem_of_documents_names in H.
      destruct H as [H|[[H _]|[_ H]]]; [discriminate H|discriminate H|congruence].
    + apply Hfs.
      * rewrite file_below_dir by reflexivity. now apply below_not_in_chain.
      * rewrite elem_of_documents_paths. intuition congruence.
  - intros ->. specialize (Hev eq_refl). subst evs.
    destruct (generate_ok _ _ _ _ _ _ _ _ E) as (_ & _ & Hall).
    rewrite Forall_forall in Hall.
    rewrite opened_expected, renders_expected.
    split; [apply documents_paths|]. split.
    { rewrite <- (documents_names package_declaration output_directory).
      generalize docs. intros l. induction l as [|d l IH]; [reflexivity|].
      cbn. now f_equal. }
    rewrite <- !truthy_iff. split; [|split; [|split; [|split; [|split]]]].
    + rewrite elem_of_documents_paths. intuition congruence.
    + rewrite elem_of_documents_paths. intuition congruence.
    + rewrite documents_paths, !app_assoc. apply last_snoc.
    + intros n ns Hn.
      destruct (Hall (py "traits", traits_md,
                      {[ py "package" := VPackage package_declaration;
                         py "namespaces" := VList (n :: ns) ]}))
        as (text & Hr & _ & Hf).
      { unfold documents, listing. rewrite getattr_traits, Hn.
        cbn [truthy to_value]. apply elem_of_app. left.
        now apply list_elem_of_singleton. }
      now exists text.
    + intros n ns Hn.
      destruct (Hall (py "specifications", specifications_md,
                      {[ py "package" := VPackage package_declaration;
                         py "namespaces" := VList (n :: ns) ]}))
        as (text & Hr & _ & Hf).
      { unfold documents, listing. rewrite getattr_specifications, Hn.
        cbn [truthy to_value]. apply elem_of_app. right.
        apply elem_of_app. left. now apply list_elem_of_singleton. }
      now exists text.
    + destruct (Hall (index package_declaration dir)) as (text & Hr & _ & Hf).
      { unfold documents. rewrite !elem_of_app, list_elem_of_singleton. tauto. }
      now exists text.
Qed.

(** C2: the creation callback is applied once to the output
    subdirectory and once to each file written, with the object's path,
    in this order: the directory, traits.md and specifications.md where
    they are rendered, index.md.  Whatever the outcome of the call, the
    state of the callback is the one these applications produce, the
    paths are an initial part of this order without duplicates, and at
    the end of the call each of them is there: the directory as a
    directory, a file with the whole text of its document.  The
    directories that [os.makedirs] makes above the subdirectory are not
    reported.  A call that returns has made all the applications: four
    when both kinds are not empty. *)
Theorem callback_order w :
  exists evs,
    trace (run w).1 = trace w ++ evs /\
    cb_state (run w).1
    = fold_left (fun s p => (creation_callback p s).1) (callbacks evs)
        (cb_state w) /\
    callbacks evs `prefix_of`
      [dir]
      ++ (if truthy (traits package_declaration) then [traits_md] else [])
      ++ (if truthy (specifications package_declaration)
          then [specifications_md] else [])
      ++ [index_md] /\
    NoDup (callbacks evs) /\
    (forall p, p ∈ callbacks evs ->
       (p = dir /\ fs (run w).1 !! p = Some Dir) \/
       (exists d text,
          d ∈ docs /\ p = d.1.2 /\ rendered env d text /\
          fs (run w).1 !! p = Some (File text))) /\
    (forall q, q ∈ intermediate_dirs dir -> q ∉ callbacks evs) /\
    ((run w).2 = inr tt ->
     callbacks evs =
       [dir]
       ++ (if truthy (traits package_declaration) then [traits_md] else [])
       ++ (if truthy (specifications package_declaration)
           then [specifications_md] else [])
       ++ [index_md] /\
     ((exists n ns, traits package_declaration = Some (n :: ns)) ->
      (exists n ns, specifications package_declaration = Some (n :: ns)) ->
      callbacks evs = [dir; traits_md; specifications_md; index_md])).
Proof.
  destruct (generate_calls jinja2 package_declaration globals_ output_directory
              creation_callback logger w) as (evs & Ht & Hc & Hrep).
  destruct (run w) as [w' r] eqn:E. cbn [fst snd] in *.
  destruct (generate_run _ _ _ _ _ _ _ _ _ E) as (_ & _ & evs' & Ht' & Hp & Hev).
  assert (evs' = evs) as -> by (apply (trace_suffix_unique w); congruence).
  exists evs. split; [assumption|]. split; [assumption|].
  apply (omap_prefix
           (fun ev => match ev with EvCallback p => Some p | _ => None end))
    in Hp.
  fold (callbacks evs) in Hp.
  fold (callbacks (expected_trace package_declaration output_directory)) in Hp.
  rewrite callbacks_expected in Hp.
  pose proof (documents_paths_distinct package_declaration output_directory)
    as Hnd.
  split; [|split; [|split; [|split]]].
  - rewrite documents_paths in Hp. exact Hp.
  - destruct Hp as [k Hk]. rewrite Hk in Hnd.
    now apply NoDup_app in Hnd as [Hnd _].
  - exact Hrep.
  - intros q Hq Hin. apply (elem_of_prefix _ _ _ Hp) in Hin.
    apply elem_of_cons in Hin as [->|Hin].
    + apply intermediate_dirs_shorter in Hq. lia.
    + apply (documents_outside_chain _ _ _ Hin), elem_of_chain. now left.
  - intros ->. rewrite (Hev eq_refl), callbacks_expected.
    split.
    + cbn [app]. f_equal. apply documents_paths.
    + rewrite <- !truthy_iff. intros H1 H2.
      now rewrite documents_paths, H1, H2.
Qed.


(** C6: [generate] catches nothing.  The step that raises first ends
    the call: when the directory step raises, and when the template of
    a document raises after the documents before it were rendered, the
    call raises the same exception and ends in the world that step
    left, with the files of the documents rendered before on disk and
    the paths of the documents after it untouched; and every raising
    call is one of these.  A step raises whenever one of its own calls
    does: the lookup of the template, the opening of the file, the
    rendering (a filter that raises included), the encoding of the
    text, the making of the directory, the caller's callback. *)
Theorem failure_propagates w :
  (forall w' e,
     create_dir_with_path_components creation_callback output_directory
       [id package_declaration ++ py "-md"] w = (w', inl e) ->
     run w = (w', inl e)) /\
  (forall w0 done d rest w1 w' e,
     create_dir_with_path_components creation_callback output_directory
       [id package_declaration ++ py "-md"] w = (w0, inr dir) ->
     docs = done ++ d :: rest ->
     render_documents env creation_callback done w0 = (w1, inr tt) ->
     render_template env creation_callback d.1.1 d.1.2 d.2 w1 = (w', inl e) ->
     run w = (w', inl e) /\
     Forall (fun d' => exists text,
               rendered env d' text /\
               fs w' !! d'.1.2 = Some (File text)) done /\
     Forall (fun d' => fs w' !! d'.1.2 = fs w !! d'.1.2) rest) /\
  (forall e,
     (run w).2 = inl e ->
     create_dir_with_path_components creation_callback output_directory
       [id package_declaration ++ py "-md"] w = ((run w).1, inl e)
     \/
     exists w0 done d rest w1,
       create_dir_with_path_components creation_callback output_directory
         [id package_declaration ++ py "-md"] w = (w0, inr dir) /\
       docs = done ++ d :: rest /\
       render_documents env creation_callback done w0 = (w1, inr tt) /\
       render_template env creation_callback d.1.1 d.1.2 d.2 w1
         = ((run w).1, inl e)) /\
  (forall w1,
     (create_dir_with_path_components creation_callback output_directory
        [id package_declaration ++ py "-md"] w1).2 =
     match (os_makedirs dir w1).2 with
     | inl e => inl e
     | inr _ =>
         match (creation_callback dir (cb_state w1)).2 with
         | Some e => inl e
         | None => inr dir
         end
     end) /\
  (forall w1 name path variables,
     (render_template env creation_callback name path variables w1).2 =
     match loader env (template_name name) with
     | None => inl (TemplateNotFound (template_name name))
     | Some t =>
         if denied w1 path then inl (PermissionError path)
         else match fs w1 !! path with
              | Some Dir => inl (IsADirectoryError path)
              | _ =>
                  match t (globals env) (filters env) variables with
                  | inl e => inl e
                  | inr text =>
                      if encodable text then
                        match (creation_callback path (cb_state w1)).2 with
                        | Some e => inl e
                        | None => inr tt
                        end
                      else inl UnicodeEncodeError
                  end
              end
     end).
Proof.
  assert (Hfiles : forall w0 done d rest w1 w' e,
             create_dir_with_path_components creation_callback output_directory
               [id package_declaration ++ py "-md"] w = (w0, inr dir) ->
             docs = done ++ d :: rest ->
             render_documents env creation_callback done w0 = (w1, inr tt) ->
             render_template env creation_callback d.1.1 d.1.2 d.2 w1
               = (w', inl e) ->
             Forall (fun d' => exists text,
                       rendered env d' text /\
                       fs w' !! d'.1.2 = Some (File text)) done /\
             Forall (fun d' => fs w' !! d'.1.2 = fs w !! d'.1.2) rest).
  { intros w0 done d rest w1 w' e Ec Hdocs Hdone Hfail. split.
    - pose proof (documents_paths_distinct package_declaration output_directory)
        as Hnd.
      apply NoDup_cons in Hnd as [_ Hnd]. rewrite Hdocs in Hnd.
      rewrite map_app in Hnd. apply NoDup_app in Hnd as (Hnd1 & Hnd2 & _).
      pose proof (render_documents_ok _ _ _ _ _ Hdone Hnd1) as Hok.
      rewrite Forall_forall in Hok |- *. intros d' Hd'.
      destruct (Hok _ Hd') as (text & Hr & _ & Hf).
      exists text. split; [assumption|].
      rewrite (render_template_fs_other _ _ _ _ _ _ _ _ _ Hfail); [assumption|].
      intros Heq. apply (Hnd2 d'.1.2).
      + now apply elem_of_paths.
      + cbn [map]. rewrite Heq. apply elem_of_cons. now left.
    - pose proof (documents_paths_distinct package_declaration output_directory)
        as Hnd.
      apply NoDup_cons in Hnd as [_ Hnd].
      assert (Hout : forall d', d' ∈ rest ->
                                d'.1.2 ∉ intermediate_dirs dir ++ [dir]).
      { intros d' Hd'. apply documents_outside_chain. rewrite Hdocs.
        apply elem_of_paths, elem_of_app. right. apply elem_of_cons. now right. }
      rewrite Hdocs, map_app in Hnd. cbn [map] in Hnd.
      apply NoDup_app in Hnd as (_ & Hnd2 & Hnd3).
      apply NoDup_cons in Hnd3 as [Hd _].
      rewrite Forall_forall. intros d' Hd'.
      assert (Hin : d'.1.2 ∈ map (fun d0 : Document => d0.1.2) rest).
      { now apply elem_of_paths. }
      rewrite (render_template_fs_other _ _ _ _ _ _ _ _ _ Hfail)
        by (intros Heq; apply Hd; now rewrite <- Heq).
      rewrite (render_documents_fs_other _ _ _ _ _ _ _ Hdone).
      + apply (create_dir_fs_other _ _ _ _ _ _ _ Ec). now apply Hout.
      + intros Hin'. apply (Hnd2 _ Hin'). apply elem_of_cons. now right. }
  split; [|split; [|split; [|split]]].
  - intros w' e Ec. now rewrite generate_unfold, Ec.
  - intros w0 done d rest w1 w' e Ec Hdocs Hdone Hfail.
    split; [|now apply (Hfiles w0 done d rest w1 w' e)].
    rewrite generate_unfold, Ec.
    change (documents package_declaration dir) with docs. rewrite Hdocs.
    clear Hdocs Ec. revert w0 Hdone.
    induction done as [|d0 done IH]; intros w0 Hdone.
    + injection Hdone as ->. cbn [app].
      now rewrite render_documents_cons, Hfail.
    + rewrite render_documents_cons in Hdone. cbn [app].
      rewrite render_documents_cons.
      destruct (render_template _ _ _ _ _ w0) as [w2 [e2|[]]];
        [discriminate Hdone|].
      now apply IH.
  - intros e. destruct (run w) as [w' r] eqn:E. cbn [fst snd]. intros ->.
    rewrite generate_unfold in E.
    destruct (create_dir_with_path_components _ _ _ w) as [w0 [e0|p]] eqn:Ec.
    { left. now injection E as <- <-. }
    right.
    destruct (create_dir_ok _ _ _ _ _ _ Ec) as (-> & _ & _).
    change (os_path_join output_directory [id package_declaration ++ py "-md"])
      with dir in *.
    destruct (render_documents_fail _ _ _ _ _ _ E)
      as (done & d & rest & w1 & Hdocs & Hdone & Hfail).
    now exists w0, done, d, rest, w1.
  - intros w1. rewrite create_dir_unfold.
    change (os_path_join output_directory [id package_declaration ++ py "-md"])
      with dir.
    destruct (os_makedirs dir w1) as [w2 [e|[]]] eqn:Em; cbn [fst snd];
      [reflexivity|].
    destruct (os_makedirs_frame _ _ _ _ Em) as (_ & Hc & _). now rewrite Hc.
  - intros w1 name path variables. apply render_template_result.
Qed.


(** C8: after a call of [generate] that returns, a second call with the
    same arguments on the files the first one left ends with exactly
    these files, each with the same text; it returns as well unless the
    callback raises. *)
Theorem second_run_same_files w :
  (run w).2 = inr tt ->
  forall w2,
    fs w2 = fs (run w).1 -> denied w2 = denied w ->
    fs (run w2).1 = fs (run w).1 /\
    ((forall p s, (creation_callback p s).2 = None) -> (run w2).2 = inr tt).
Proof.
  destruct (run w) as [w1 r] eqn:E. cbn [fst snd]. intros -> w2 Hfs Hden.
  destruct (generate_ok _ _ _ _ _ _ _ _ E) as (Hdirs & Hdir & Hall).
  rewrite generate_unfold.
  assert (Hdirs2 : Forall (fun q => fs w2 !! q = Some Dir)
                     (intermediate_dirs dir ++ [dir])) by now rewrite Hfs.
  destruct (create_dir_existing creation_callback output_directory
              [id package_declaration ++ py "-md"] w2 Hdirs2)
    as (Hfs3 & Hden3 & _ & _ & Hr3).
  change (os_path_join output_directory [id package_declaration ++ py "-md"])
    with dir in *.
  destruct (create_dir_with_path_components _ _ _ w2) as [w3 r3] eqn:Ec.
  cbn [fst snd] in Hfs3, Hden3, Hr3.
  destruct r3 as [e3|p].
  - cbn [fst snd]. split; [congruence|].
    intros Hcb. rewrite Hcb in Hr3. discriminate Hr3.
  - destruct (create_dir_ok _ _ _ _ _ _ Ec) as (-> & _ & _).
    change (os_path_join output_directory [id package_declaration ++ py "-md"])
      with dir in *.
    destruct (render_documents env creation_callback docs w3) as [w4 r4] eqn:Er.
    cbn [fst snd].
    assert (Hall3 : Forall (fun d => exists text,
                        rendered env d text /\
                        denied w3 d.1.2 = false /\
                        fs w3 !! d.1.2 = Some (File text)) docs).
    { rewrite Hden3, Hden, Hfs3, Hfs. exact Hall. }
    destruct (render_documents_again _ _ _ _ _ _ Hall3 Er) as [Hfs4 Hr4].
    split; [congruence|exact Hr4].
Qed.

(** When the subdirectory and the directories above it are there, the
    directory step creates nothing, applies the callback to the
    directory's path, and answers as the callback does; these are the
    first two calls of [generate]. *)
Lemma generate_existing_directory w :
  Forall (fun q => fs w !! q = Some Dir) (intermediate_dirs dir ++ [dir]) ->
  fs (create_dir_with_path_components creation_callback output_directory
        [id package_declaration ++ py "-md"] w).1 = fs w /\
  cb_state (create_dir_with_path_components creation_callback output_directory
              [id package_declaration ++ py "-md"] w).1
  = (creation_callback dir (cb_state w)).1 /\
  (create_dir_with_path_components creation_callback output_directory
     [id package_declaration ++ py "-md"] w).2
  = match (creation_callback dir (cb_state w)).2 with
    | Some e => inl e
    | None => inr dir
    end /\
  exists evs,
    trace (run w).1 = trace w ++ EvMakedirs dir :: EvCallback dir :: evs /\
    cb_state (run w).1
    = fold_left (fun s p => (creation_callback p s).1) (callbacks evs)
        (creation_callback dir (cb_state w)).1.
Proof.
  intros Hall.
  destruct (create_dir_existing creation_callback output_directory
              [id package_declaration ++ py "-md"] w Hall)
    as (Hfs & _ & Hc & Ht & Hr).
  change (os_path_join output_directory [id package_declaration ++ py "-md"])
    with dir in *.
  split; [exact Hfs|]. split; [exact Hc|]. split; [exact Hr|].
  rewrite generate_unfold.
  destruct (create_dir_with_path_components _ _ _ w) as [w1 [e|p]] eqn:Ec;
    cbn [fst snd] in *.
  - exists []. split; [exact Ht|]. now rewrite Hc.
  - destruct (create_dir_ok _ _ _ _ _ _ Ec) as (-> & _ & _).
    change (os_path_join output_directory [id package_declaration ++ py "-md"])
      with dir in *.
    destruct (render_documents env creation_callback docs w1) as [w2 r2] eqn:Er.
    pose proof (documents_paths_distinct package_declaration output_directory)
      as Hnd.
    apply NoDup_cons in Hnd as [_ Hnd].
    destruct (render_documents_calls _ _ _ _ _ _ Er Hnd) as (l & Hl & Hcl & _).
    exists l. cbn [fst]. split.
    + now rewrite Hl, Ht, <- app_assoc.
    + now rewrite Hcl, Hc.
Qed.

(** C9: when the output subdirectory and the directories above it are
    already there, the directory step of [generate] creates nothing
    and changes no file, and the creation callback is applied to the
    directory's path all the same, as the first callback of the call:
    the state of the callback is the one this application gives, and
    the step raises if and only if the callback does.  So it is after
    a call that returns: a second call into the same output directory
    finds the directory, creates nothing and reports it again. *)
Theorem existing_directory_reported w :
  (Forall (fun q => fs w !! q = Some Dir) (intermediate_dirs dir ++ [dir]) ->
   fs (create_dir_with_path_components creation_callback output_directory
         [id package_declaration ++ py "-md"] w).1 = fs w /\
   cb_state (create_dir_with_path_components creation_callback
               output_directory [id package_declaration ++ py "-md"] w).1
   = (creation_callback dir (cb_state w)).1 /\
   (create_dir_with_path_components creation_callback output_directory
      [id package_declaration ++ py "-md"] w).2
   = match (creation_callback dir (cb_state w)).2 with
     | Some e => inl e
     | None => inr dir
     end /\
   exists evs,
     trace (run w).1 = trace w ++ EvMakedirs dir :: EvCallback dir :: evs /\
     cb_state (run w).1
     = fold_left (fun s p => (creation_callback p s).1) (callbacks evs)
         (creation_callback dir (cb_state w)).1) /\
  ((run w).2 = inr tt ->
   fs (create_dir_with_path_components creation_callback output_directory
         [id package_declaration ++ py "-md"] (run w).1).1 = fs (run w).1 /\
   cb_state (create_dir_with_path_components creation_callback
               output_directory [id package_declaration ++ py "-md"]
               (run w).1).1
   = (creation_callback dir (cb_state (run w).1)).1 /\
   exists evs,
     trace (run (run w).1).1
     = trace (run w).1 ++ EvMakedirs dir :: EvCallback dir :: evs /\
     cb_state (run (run w).1).1
     = fold_left (fun s p => (creation_callback p s).1) (callbacks evs)
         (creation_callback dir (cb_state (run w).1)).1).
Proof.
  split; [apply generate_existing_directory|].
  destruct (run w) as [w1 r] eqn:E. cbn [fst snd]. intros ->.
  destruct (generate_ok _ _ _ _ _ _ _ _ E) as (Hdirs & _ & _).
  destruct (generate_existing_directory w1 Hdirs) as (H1 & H2 & _ & H3).
  now repeat split.
Qed.

End Claims.

(** *** The properties at a concrete package *)

Local Abbreviation demo_run p :=
  (generate Demo.jinja2 p ∅ (py "out") Demo.record_path tt).

Lemma listings_rendered_witness :
  (demo_run Demo.traits_only Demo.fresh).2 = inr tt /\
  exists evs,
    trace (demo_run Demo.traits_only Demo.fresh).1 = evs /\
    opened evs = [py "out/pkg-md/traits.md"; py "out/pkg-md/index.md"] /\
    (py "out/pkg-md/specifications.md" ∉ opened evs) /\
    fs (demo_run Demo.traits_only Demo.fresh).1 !! py "out/pkg-md/specifications.md"
    = None /\
    exists text,
      fs (demo_run Demo.traits_only Demo.fresh).1 !! py "out/pkg-md/traits.md"
      = Some (File text).
Proof.
  assert (H : (demo_run Demo.traits_only Demo.fresh).2 = inr tt)
    by (vm_compute; reflexivity).
  split; [exact H|].
  destruct (listings_rendered_iff_nonempty Demo.jinja2 Demo.traits_only ∅
              (py "out") Demo.record_path tt Demo.fresh)
    as (evs & Ht & _ & Hs & Hret).
  destruct (Hs eq_refl) as (Hs1 & _ & Hs3).
  destruct (Hret H) as (Ho & _ & _ & _ & _ & Htr & _).
  destruct (Htr (py "usage") [] eq_refl) as (text & _ & Hf).
  exists evs. split; [exact Ht|]. split; [exact Ho|]. split; [exact Hs1|].
  split; [exact Hs3|]. exists text. exact Hf.
Defined.

Lemma callback_order_witness :
  (demo_run Demo.both Demo.fresh).2 = inr tt /\
  exists evs,
    trace (demo_run Demo.both Demo.fresh).1 = evs /\
    callbacks evs =
      [ py "out/pkg-md"; py "out/pkg-md/traits.md";
        py "out/pkg-md/specifications.md"; py "out/pkg-md/index.md" ] /\
    cb_state (demo_run Demo.both Demo.fresh).1
    = fold_left (fun s p => (Demo.record_path p s).1) (callbacks evs) [].
Proof.
  assert (H : (demo_run Demo.both Demo.fresh).2 = inr tt)
    by (vm_compute; reflexivity).
  split; [exact H|].
  destruct (callback_order Demo.jinja2 Demo.both ∅ (py "out") Demo.record_path
              tt Demo.fresh) as (evs & Ht & Hc & _ & _ & _ & _ & Hret).
  destruct (Hret H) as [Hall _].
  exists evs. split; [exact Ht|]. split; [exact Hall|exact Hc].
Defined.

(** The callback is not applied once for each object a call creates: on
    an empty file system the call also makes the directory above the
    subdirectory, which it does not report; and a second call, which
    finds everything there and creates nothing, reports all four paths
    again. *)
Lemma callback_not_per_created_object :
  fs Demo.fresh !! py "out" = None /\
  (demo_run Demo.both Demo.fresh).2 = inr tt /\
  fs (demo_run Demo.both Demo.fresh).1 !! py "out" = Some Dir /\
  cb_state (demo_run Demo.both Demo.fresh).1
  = [ py "out/pkg-md"; py "out/pkg-md/traits.md";
      py "out/pkg-md/specifications.md"; py "out/pkg-md/index.md" ] /\
  (demo_run Demo.both (demo_run Demo.both Demo.fresh).1).2 = inr tt /\
  fs (demo_run Demo.both (demo_run Demo.both Demo.fresh).1).1
  = fs (demo_run Demo.both Demo.fresh).1 /\
  cb_state (demo_run Demo.both (demo_run Demo.both Demo.fresh).1).1
  = [ py "out/pkg-md"; py "out/pkg-md/traits.md";
      py "out/pkg-md/specifications.md"; py "out/pkg-md/index.md";
      py "out/pkg-md"; py "out/pkg-md/traits.md";
      py "out/pkg-md/specifications.md"; py "out/pkg-md/index.md" ].
Proof.
  repeat match goal with
         | |- _ /\ _ => split; [vm_compute; reflexivity|]
         end.
  vm_compute. reflexivity.
Qed.


(** A world in which index.md may not be written. *)
Local Abbreviation index_refused :=
  {| fs := (∅ : gmap pystr Node);
     denied := fun p => bool_decide (p = py "out/pkg-md/index.md");
     cb_state := ([] : list pystr);
     trace := ([] : list (Event pystr)) |}.

Lemma failure_propagates_witness :
  (demo_run Demo.both index_refused).2
  = inl (PermissionError (py "out/pkg-md/index.md")) /\
  fs (demo_run Demo.both index_refused).1 !! py "out/pkg-md/traits.md"
  = Some (File (py "# usage")) /\
  Forall (fun d' => exists text,
            fs (demo_run Demo.both index_refused).1 !! d'.1.2 = Some (File text))
    (listing Demo.both (py "out/pkg-md") (py "traits")
     ++ listing Demo.both (py "out/pkg-md") (py "specifications")).
Proof.
  destruct (failure_propagates Demo.jinja2 Demo.both ∅ (py "out")
              Demo.record_path tt index_refused) as (_ & Hdoc & _).
  destruct (Hdoc
              (create_dir_with_path_components Demo.record_path (py "out")
                 [py "pkg-md"] index_refused).1
              (listing Demo.both (py "out/pkg-md") (py "traits")
               ++ listing Demo.both (py "out/pkg-md") (py "specifications"))
              (index Demo.both (py "out/pkg-md"))
              []
              (render_documents (_create_jinja_env Demo.jinja2 ∅ tt)
                 Demo.record_path
                 (listing Demo.both (py "out/pkg-md") (py "traits")
                  ++ listing Demo.both (py "out/pkg-md") (py "specifications"))
                 (create_dir_with_path_components Demo.record_path (py "out")
                    [py "pkg-md"] index_refused).1).1
              (demo_run Demo.both index_refused).1
              (PermissionError (py "out/pkg-md/index.md")))
    as (Hrun & Hdone & _).
  - vm_compute. reflexivity.
  - reflexivity.
  - vm_compute. reflexivity.
  - vm_compute. reflexivity.
  - split; [now rewrite Hrun|].
    split; [vm_compute; reflexivity|].
    eapply Forall_impl; [exact Hdone|].
    intros d' (text & _ & Hf). now exists text.
Defined.



Lemma second_run_same_files_witness :
  (demo_run Demo.both Demo.fresh).2 = inr tt /\
  fs (demo_run Demo.both (demo_run Demo.both Demo.fresh).1).1
  = fs (demo_run Demo.both Demo.fresh).1 /\
  (demo_run Demo.both (demo_run Demo.both Demo.fresh).1).2 = inr tt.
Proof.
  assert (H : (demo_run Demo.both Demo.fresh).2 = inr tt)
    by (vm_compute; reflexivity).
  split; [exact H|].
  destruct (second_run_same_files Demo.jinja2 Demo.both ∅ (py "out")
              Demo.record_path tt Demo.fresh H
              (demo_run Demo.both Demo.fresh).1 eq_refl)
    as [Hfs Hr].
  - vm_compute. reflexivity.
  - split; [exact Hfs|]. apply Hr. reflexivity.
Defined.

Lemma existing_directory_witness :
  (demo_run Demo.both Demo.fresh).2 = inr tt /\
  fs (demo_run Demo.both Demo.fresh).1 !! py "out/pkg-md" = Some Dir /\
  fs (create_dir_with_path_components Demo.record_path (py "out") [py "pkg-md"]
        (demo_run Demo.both Demo.fresh).1).1
  = fs (demo_run Demo.both Demo.fresh).1 /\
  cb_state (create_dir_with_path_components Demo.record_path (py "out")
              [py "pkg-md"] (demo_run Demo.both Demo.fresh).1).1
  = cb_state (demo_run Demo.both Demo.fresh).1 ++ [py "out/pkg-md"] /\
  exists evs,
    trace (demo_run Demo.both (demo_run Demo.both Demo.fresh).1).1
    = trace (demo_run Demo.both Demo.fresh).1
      ++ EvMakedirs (py "out/pkg-md") :: EvCallback (py "out/pkg-md") :: evs.
Proof.
  assert (H : (demo_run Demo.both Demo.fresh).2 = inr tt)
    by (vm_compute; reflexivity).
  split; [exact H|].
  split; [vm_compute; reflexivity|].
  destruct (existing_directory_reported Demo.jinja2 Demo.both ∅ (py "out")
              Demo.record_path tt Demo.fresh) as [_ Hagain].
  destruct (Hagain H) as (Hfs & Hcb & evs & Ht & _).
  split; [exact Hfs|]. split; [exact Hcb|]. exists evs. exact Ht.
Defined.

(** A property of type [DICT] reaching [to_type_pretty_name] while
    specifications.md is rendered: the [TypeError] is what [generate]
    raises; traits.md is complete, specifications.md was opened and is
    empty, index.md was never begun. *)
Example dict_property_aborts :
  let r := generate Demo.jinja2_dict Demo.both ∅ (py "out") Demo.record_path tt
             Demo.fresh in
  r.2 = inl (TypeError (py "Dictionary types are not yet supported as trait properties")) /\
  fs r.1 !! py "out/pkg-md/traits.md" = Some (File (py "# usage")) /\
  fs r.1 !! py "out/pkg-md/specifications.md" = Some (File []) /\
  fs r.1 !! py "out/pkg-md/index.md" = None /\
  cb_state r.1 = [py "out/pkg-md"; py "out/pkg-md/traits.md"].
Proof. vm_compute. repeat split. Qed.

(** * Further properties *)

(** ** The text filters *)

(** *** What [cleanup_md_string] leaves alone *)

Lemma filter_spaces_nil (ws : pystr) :
  Forall (fun c => is_space c = true) ws ->
  List.filter (fun c => negb (is_space c)) ws = [].
Proof.
  induction 1 as [|c ws Hc _ IH]; [reflexivity|]. cbn. now rewrite Hc.
Qed.

Lemma sub1_keeps_text (s : pystr) :
  List.filter (fun c => negb (is_space c)) (sub1 s)
  = List.filter (fun c => negb (is_space c)) s.
Proof.
  remember (length s) as n eqn:Hn.
  revert s Hn. induction n as [n IH] using lt_wf_ind. intros s ->.
  destruct s as [|c s]; [reflexivity|].
  destruct (colon_marker (c :: s)) as [[repl len]|] eqn:E.
  - destruct (colon_marker_inv _ _ _ E)
      as (ws & m & rest & [= -> ->] & Hws & Hm & -> & ->).
    rewrite (sub1_match _ _ _ Hws Hm).
    change (COLON :: ws ++ m :: rest) with ([COLON] ++ ws ++ [m] ++ rest).
    change (COLON :: LF :: SPACE :: m :: sub1 rest)
      with ([COLON; LF; SPACE] ++ [m] ++ sub1 rest).
    rewrite !List.filter_app, (filter_spaces_nil _ Hws).
    cbn [app]. f_equal. f_equal.
    eapply IH; [|reflexivity]. cbn [length]. rewrite length_app. cbn [length]. lia.
  - rewrite (re_sub_nomatch _ _ _ E). cbn [List.filter].
    rewrite (IH (length s)); [reflexivity| |reflexivity]. cbn [length]. lia.
Qed.

Lemma sub2_keeps_text (s : pystr) :
  List.filter (fun c => negb (is_space c)) (sub2 s)
  = List.filter (fun c => negb (is_space c)) s.
Proof.
  remember (length s) as n eqn:Hn.
  revert s Hn. induction n as [n IH] using lt_wf_ind. intros s ->.
  destruct s as [|c s]; [reflexivity|].
  destruct (literal seq003_pattern seq003_replacement (c :: s))
    as [[repl len]|] eqn:E.
  - destruct (seq003_sound _ _ _ E) as (c' & s' & k & [= <- <-] & -> & Hs & ->).
    remember (skipn k s) as rest eqn:Hrest. clear Hrest E.
    assert (Hlen : length (c :: s) = (18 + length rest)%nat)
      by (rewrite Hs, length_app; reflexivity).
    rewrite Hs, sub2_match, !List.filter_app. f_equal.
    eapply IH; [|reflexivity]. lia.
  - rewrite (re_sub_nomatch _ _ _ E). cbn [List.filter].
    rewrite (IH (length s)); [reflexivity| |reflexivity]. cbn [length]. lia.
Qed.

(** X1: [cleanup_md_string] changes whitespace only: the characters of
    its result that are not whitespace are those of its argument, in the
    same order. *)
Theorem cleanup_md_string_keeps_text (s : pystr) :
  List.filter (fun c => negb (is_space c)) (cleanup_md_string s)
  = List.filter (fun c => negb (is_space c)) s.
Proof.
  unfold cleanup_md_string. now rewrite sub2_keeps_text, sub1_keeps_text.
Qed.

(** *** What the result of [cleanup_md_string] looks like *)

Lemma sub2_fixed_no_literal (u pre post : pystr) :
  sub2 u = u -> u <> pre ++ seq003_pattern ++ post.
Proof.
  revert u. induction pre as [|c pre IH]; intros u Hfix Hu.
  - cbn [app] in Hu. rewrite Hu, sub2_match in Hfix.
    apply app_inj_1 in Hfix as [Hfix _]; [discriminate Hfix|reflexivity].
  - destruct u as [|c' u]; [discriminate Hu|]. injection Hu as -> Hu.
    destruct (literal seq003_pattern seq003_replacement (c :: u))
      as [[repl len]|] eqn:E.
    + destruct (seq003_sound _ _ _ E) as (c' & s' & k & [= <- <-] & -> & Hs & ->).
      rewrite Hs in Hfix at 1. rewrite sub2_match in Hfix. rewrite Hs in Hfix.
      apply app_inj_1 in Hfix as [Hfix _]; [discriminate Hfix|reflexivity].
    + rewrite (re_sub_nomatch _ _ _ E) in Hfix. injection Hfix as Hfix.
      exact (IH _ Hfix Hu).
Qed.

(** X2: the literal of the second substitution does not occur in the
    result of [cleanup_md_string]. *)
Theorem cleanup_md_string_no_seq003 (s pre post : pystr) :
  cleanup_md_string s <> pre ++ seq003_pattern ++ post.
Proof.
  apply sub2_fixed_no_literal. unfold cleanup_md_string. apply sub2_idempotent.
Qed.

Lemma spaces_marker_inj (ws1 ws2 : pystr) (m1 m2 : N) (r1 r2 : pystr) :
  Forall (fun c => is_space c = true) ws1 ->
  Forall (fun c => is_space c = true) ws2 ->
  is_list_marker m1 = true -> is_list_marker m2 = true ->
  ws1 ++ m1 :: r1 = ws2 ++ m2 :: r2 -> ws1 = ws2 /\ m1 = m2 /\ r1 = r2.
Proof.
  intros H1 H2 Hm1 Hm2 E.
  pose proof (colon_marker_some ws1 m1 r1 H1 Hm1) as E1.
  pose proof (colon_marker_some ws2 m2 r2 H2 Hm2) as E2.
  rewrite E in E1. rewrite E1 in E2. injection E2 as -> Hl.
  apply app_inj_1 in E as [-> E]; [|exact Hl]. now injection E as ->.
Qed.

Lemma sub1_fixed_markers (u pre ws post : pystr) (m : N) :
  sub1 u = u ->
  u = pre ++ COLON :: ws ++ m :: post ->
  Forall (fun c => is_space c = true) ws -> is_list_marker m = true ->
  ws = [LF; SPACE].
Proof.
  intros Hfix Hu Hws Hm.
  remember (length u) as n eqn:Hn.
  revert u pre Hfix Hu Hn. induction n as [n IH] using lt_wf_ind.
  intros u pre Hfix Hu ->.
  destruct pre as [|c pre]; cbn [app] in Hu.
  - rewrite Hu in Hfix. rewrite (sub1_match _ _ _ Hws Hm) in Hfix.
    injection Hfix as Hfix.
    assert (Hsp : Forall (fun c => is_space c = true) [LF; SPACE])
      by (repeat constructor).
    change (LF :: SPACE :: m :: sub1 post)
      with ([LF; SPACE] ++ m :: sub1 post) in Hfix.
    now destruct (spaces_marker_inj _ _ _ _ _ _ Hsp Hws Hm Hm Hfix) as [<- _].
  - destruct u as [|c' u]; [discriminate Hu|]. injection Hu as -> Hu.
    destruct (colon_marker (c :: u)) as [[repl len]|] eqn:E.
    + destruct (colon_marker_inv _ _ _ E)
        as (ws0 & m0 & rest & [= -> ->] & Hws0 & Hm0 & -> & ->).
      rewrite (sub1_match _ _ _ Hws0 Hm0) in Hfix. injection Hfix as Hfix.
      assert (Hsp : Forall (fun c => is_space c = true) [LF; SPACE])
        by (repeat constructor).
      change (LF :: SPACE :: m0 :: sub1 rest)
        with ([LF; SPACE] ++ m0 :: sub1 rest) in Hfix.
      destruct (spaces_marker_inj _ _ _ _ _ _ Hsp Hws0 Hm0 Hm0 Hfix)
        as (<- & _ & Hrest).
      cbn [app] in Hu.
      assert (Hm0c : m0 <> COLON).
      { apply is_list_marker_true in Hm0. destruct Hm0 as [-> | ->]; discriminate. }
      destruct pre as [|p1 pre]; [injection Hu as Hu; discriminate Hu|].
      injection Hu as <- Hu.
      destruct pre as [|p2 pre]; [injection Hu as Hu; discriminate Hu|].
      injection Hu as <- Hu.
      destruct pre as [|p3 pre]; [injection Hu as Hu; now destruct Hm0c|].
      injection Hu as <- Hu.
      eapply (IH (length rest)); [|exact Hrest|exact Hu|reflexivity].
      cbn [length app]. lia.
    + rewrite (re_sub_nomatch _ _ _ E) in Hfix. injection Hfix as Hfix.
      eapply (IH (length u)); [|exact Hfix|exact Hu|reflexivity].
      cbn [length]. lia.
Qed.

(** X3: in the result of [cleanup_md_string], a list marker that follows
    a colon, with nothing but whitespace in between, stands on the next
    line behind one space: the whitespace is exactly a line feed and a
    space.  No colon-and-marker of another shape is left. *)
Theorem cleanup_md_string_markers_normal (s pre ws post : pystr) (m : N) :
  cleanup_md_string s = pre ++ COLON :: ws ++ m :: post ->
  Forall (fun c => is_space c = true) ws ->
  is_list_marker m = true ->
  ws = [LF; SPACE].
Proof.
  intros Hs. eapply sub1_fixed_markers; [|exact Hs].
  unfold cleanup_md_string. apply sub1_sub2_sub1.
Qed.

Lemma cleanup_md_string_markers_witness :
  cleanup_md_string (py "a:  * b")
  = py "a" ++ COLON :: [LF; SPACE] ++ ASTERISK :: py " b" /\
  [LF; SPACE] = [LF; SPACE].
Proof.
  split; [reflexivity|].
  apply (cleanup_md_string_markers_normal (py "a:  * b") (py "a") [LF; SPACE]
           (py " b") ASTERISK); [reflexivity|repeat constructor|reflexivity].
Defined.

(** *** The two substitutions in the other order *)

(** X4: the order of the two substitutions of [cleanup_md_string] does
    not matter: the literal first and the colon pattern second give the
    same text. *)
Theorem substitutions_commute (s : pystr) :
  re_sub colon_marker (re_sub (literal seq003_pattern seq003_replacement) s)
  = cleanup_md_string s.
Proof.
  unfold cleanup_md_string.
  remember (length s) as n eqn:Hn.
  revert s Hn. induction n as [n IH] using lt_wf_ind. intros s ->.
  destruct s as [|c s]; [reflexivity|].
  assert (IHs : sub1 (sub2 s) = sub2 (sub1 s)).
  { eapply IH; [|reflexivity]. cbn [length]. lia. }
  destruct (colon_marker (c :: s)) as [[repl len]|] eqn:E.
  - destruct (colon_marker_inv _ _ _ E)
      as (ws & m & rest & [= -> ->] & Hws & Hm & -> & ->).
    assert (Hma : m <> LETTER_A).
    { apply is_list_marker_true in Hm. destruct Hm as [-> | ->]; discriminate. }
    rewrite (sub1_match _ _ _ Hws Hm).
    rewrite !sub2_cons_other by (assumption || discriminate).
    assert (Hwa : Forall (fun c => c <> LETTER_A) ws).
    { eapply Forall_impl; [exact Hws|]. intros x Hx. now apply space_not_a. }
    rewrite (sub2_app_other _ _ Hwa), (sub2_cons_other _ _ Hma).
    rewrite (sub1_match _ _ _ Hws Hm). do 4 f_equal.
    eapply IH; [|reflexivity]. cbn [length]. rewrite length_app. cbn [length]. lia.
  - rewrite (re_sub_nomatch _ _ _ E).
    destruct (literal seq003_pattern seq003_replacement (c :: s))
      as [[repl len]|] eqn:E2.
    + destruct (seq003_sound _ _ _ E2) as (c' & s' & k & [= <- <-] & -> & Hs & ->).
      remember (skipn k s) as rest eqn:Hrest. clear Hrest E2.
      assert (Hlen : length (c :: s) = (18 + length rest)%nat)
        by (rewrite Hs, length_app; reflexivity).
      rewrite Hs, sub2_match.
      rewrite (sub1_app_other _ _ seq003_replacement_no_colon).
      assert (Hcs : c = LETTER_A /\ s = skipn 1 seq003_pattern ++ rest)
        by (now injection Hs).
      destruct Hcs as [-> ->]. clear Hs.
      rewrite (sub1_app_other _ _ seq003_pattern_tail_no_colon).
      change (LETTER_A :: skipn 1 seq003_pattern ++ sub1 rest)
        with (seq003_pattern ++ sub1 rest).
      rewrite sub2_match. f_equal.
      eapply IH; [|reflexivity]. lia.
    + rewrite (re_sub_nomatch _ _ _ E2).
      assert (E3 : literal seq003_pattern seq003_replacement (c :: sub1 s) = None).
      { apply literal_none.
        destruct (starts_with seq003_pattern (c :: sub1 s)) eqn:E'; [|reflexivity].
        apply literal_none_inv in E2.
        change seq003_pattern with (LETTER_A :: skipn 1 seq003_pattern) in E2, E'.
        cbn [starts_with] in E2, E'. apply andb_true_iff in E' as [Ec E'].
        apply starts_with_inv in E'.
        destruct (sub1_prefix_inv _ _ _ seq003_pattern_tail_no_colon E')
          as (x' & Hx & _).
        rewrite Hx, starts_with_app, Ec in E2. discriminate E2. }
      rewrite (re_sub_nomatch _ _ _ E3).
      destruct (N.eq_dec c COLON) as [->|Hc].
      * rewrite re_sub_nomatch; [now rewrite IHs|].
        apply colon_marker_none. apply colon_marker_none_inv in E.
        rewrite (marker_after_spaces_preserved (fun x => sub2 x)); [exact E| |].
        -- apply sub2_head.
        -- intros w x Hw. now rewrite (sub2_cons_other _ _ (space_not_a _ Hw)).
      * now rewrite (sub1_cons_other _ _ Hc), IHs.
Qed.

(** *** [to_type_pretty_name] *)

(** X5: [to_type_pretty_name] gives different property types different
    names, and never the name [dict] that [type_map] holds for [DICT]. *)
Theorem to_type_pretty_name_injective (a b : DeclarationType) (s : pystr) :
  to_type_pretty_name a = inr s ->
  to_type_pretty_name b = inr s ->
  a = b /\ s <> py "dict".
Proof.
  destruct a as [[]|ra|ma], b as [[]|rb|mb]; intros Ha Hb;
    try discriminate Ha; try discriminate Hb;
    vm_compute in Ha, Hb; try congruence;
    injection Ha as <-; (split; [reflexivity|discriminate]).
Qed.

Lemma to_type_pretty_name_injective_witness :
  Member FLOAT = Member FLOAT /\ py "float" <> py "dict".
Proof.
  apply (to_type_pretty_name_injective (Member FLOAT) (Member FLOAT) (py "float"));
    reflexivity.
Defined.

(** ** More on the generator *)

(** *** The Jinja environment *)

Lemma filter_names_differ : py "cleanup_md_string" <> py "to_type_pretty_name".
Proof. discriminate. Qed.

(** X6: the environment [_create_jinja_env] builds loads the templates
    bundled with the package; among its globals the caller's win over
    Jinja's defaults, which stay where the caller gives none; the two
    custom filters are there under their names, in place of any default
    filter of that name, and every other default filter is kept. *)
Theorem jinja_env_contents {NamespaceDeclaration Object Logger : Type}
    (jinja2 : Jinja2 NamespaceDeclaration Object)
    (env_globals : gmap pystr Object) (logger : Logger) :
  loader (_create_jinja_env jinja2 env_globals logger)
  = PackageLoader jinja2 (py "openassetio_traitgen") /\
  (forall k,
     globals (_create_jinja_env jinja2 env_globals logger) !! k =
     match env_globals !! k with
     | Some v => Some v
     | None => DEFAULT_NAMESPACE jinja2 !! k
     end) /\
  filters (_create_jinja_env jinja2 env_globals logger) !! py "cleanup_md_string"
  = Some (StrFilter cleanup_md_string) /\
  filters (_create_jinja_env jinja2 env_globals logger) !! py "to_type_pretty_name"
  = Some (DeclFilter to_type_pretty_name) /\
  (forall k,
     k <> py "cleanup_md_string" -> k <> py "to_type_pretty_name" ->
     filters (_create_jinja_env jinja2 env_globals logger) !! k
     = DEFAULT_FILTERS jinja2 !! k).
Proof.
  unfold _create_jinja_env, _install_custom_filters.
  cbn [loader globals filters]. repeat split.
  - intros k. rewrite lookup_union.
    now destruct (env_globals !! k), (DEFAULT_NAMESPACE jinja2 !! k).
  - rewrite lookup_insert_ne by (intros E; symmetry in E; now apply filter_names_differ).
    apply lookup_insert_eq.
  - apply lookup_insert_eq.
  - intros k H1 H2. now rewrite !lookup_insert_ne by congruence.
Qed.

(** *** One document, when something is wrong *)

Section StepEdges.

Context {NamespaceDeclaration Object CB : Type}.

Implicit Types (w : World NamespaceDeclaration CB).

Variable env : Environment NamespaceDeclaration Object.
Variable cb : Callback CB.

Ltac step_cases :=
  repeat first
    [ progress (unfold render_template, bind, get_template, open_w, render,
                  write, call, log, set_fs, raise, ret in * )
    | progress (cbn [fs denied cb_state trace fst snd] in * )
    | case_match
    | progress simplify_eq
    | congruence ].

(** X7: a template that is not bundled is found missing before the
    output file is opened: [render_template] raises [TemplateNotFound]
    with the template's name, no file is created or changed, and the
    callback is not invoked. *)
Theorem missing_template_leaves_files name path vars w :
  loader env (template_name name) = None ->
  (render_template env cb name path vars w).2
  = inl (TemplateNotFound (template_name name)) /\
  fs (render_template env cb name path vars w).1 = fs w /\
  cb_state (render_template env cb name path vars w).1 = cb_state w /\
  trace (render_template env cb name path vars w).1
  = trace w ++ [EvGetTemplate (template_name name)].
Proof.
  intros H. unfold template_name in *.
  unfold render_template, bind, get_template, log, raise.
  cbn [fs denied cb_state trace fst snd]. now rewrite H.
Qed.

(** X8: the output file is opened before the template is rendered.  When
    the template raises, or renders text that UTF-8 cannot encode,
    [render_template] raises that exception and leaves the file empty,
    whatever it held before; the callback is not invoked. *)
Theorem failed_render_empties_file name path vars t e w :
  loader env (template_name name) = Some t ->
  denied w path = false ->
  fs w !! path <> Some Dir ->
  t (globals env) (filters env) vars = inl e \/
  (exists text, t (globals env) (filters env) vars = inr text /\
                encodable text = false /\ e = UnicodeEncodeError) ->
  (render_template env cb name path vars w).2 = inl e /\
  fs (render_template env cb name path vars w).1 = <[path := File []]> (fs w) /\
  cb_state (render_template env cb name path vars w).1 = cb_state w /\
  trace (render_template env cb name path vars w).1
  = trace w ++ [ EvGetTemplate (template_name name); EvOpen path;
                 EvRender (template_name name) vars ].
Proof.
  intros Ht Hd Hf Hr. unfold template_name in *.
  destruct (render_template env cb name path vars w) as [w' r] eqn:E.
  cbn [fst snd].
  destruct Hr as [Hr|(text & Hr & He & ->)];
    step_cases; rewrite <- ?app_assoc; repeat split; congruence.
Qed.

End StepEdges.

(** *** Whole runs *)

Section FurtherRuns.

Context {NamespaceDeclaration Object Logger CB : Type}.

Implicit Types (w : World NamespaceDeclaration CB).

Variable jinja2 : Jinja2 NamespaceDeclaration Object.
Variable package_declaration : PackageDeclaration NamespaceDeclaration.
Variable globals_ : gmap pystr Object.
Variable output_directory : pystr.
Variable creation_callback : Callback CB.
Variable logger : Logger.

Local Abbreviation run :=
  (generate jinja2 package_declaration globals_ output_directory
     creation_callback logger).
Local Abbreviation env := (_create_jinja_env jinja2 globals_ logger).
Local Abbreviation dir := (output_dir package_declaration output_directory).
Local Abbreviation docs := (documents package_declaration dir).
Local Abbreviation traits_md := (os_path_join dir [py "traits.md"]).
Local Abbreviation specifications_md :=
  (os_path_join dir [py "specifications.md"]).
Local Abbreviation index_md := (os_path_join dir [py "index.md"]).

(** X9: the creation callback is told of a path only once the path is
    complete.  Whatever the outcome of [generate], every path the
    callback was invoked with is, at the end of the call, the output
    directory, present as a directory, or the path of one of the
    package's documents, a file that holds the whole text its template
    renders to. *)
Theorem reported_paths_complete w :
  exists evs,
    trace (run w).1 = trace w ++ evs /\
    forall p, p ∈ callbacks evs ->
      (p = dir /\ fs (run w).1 !! p = Some Dir) \/
      (exists d text,
         d ∈ docs /\ p = d.1.2 /\ rendered env d text /\
         fs (run w).1 !! p = Some (File text)).
Proof.
  destruct (generate_calls jinja2 package_declaration globals_ output_directory
              creation_callback logger w) as (evs & Ht & _ & Hrep).
  exists evs. now split.
Qed.

(** X10: when the output directory cannot be made, because a file
    stands at its path or at the path of a directory above it, or
    because the operating system refuses a directory that is missing,
    [generate] raises the error of [os.makedirs] at once: the callback
    is not applied, no template is looked up and no file is opened or
    changed.  Directories above the output directory that were missing
    may have been made before the failure, and nothing else changes;
    when they were all there, the file system is left as it was and the
    error is [FileExistsError] for a file at the directory's path and
    [PermissionError] otherwise. *)
Theorem directory_not_creatable w q :
  q ∈ intermediate_dirs dir ++ [dir] ->
  (exists c, fs w !! q = Some (File c)) \/
  (fs w !! q = None /\ denied w q = true) ->
  (exists e,
     (run w).2 = inl e /\
     ((exists a, a ∈ intermediate_dirs dir ++ [dir] /\
                 (e = PermissionError a \/ e = NotADirectoryError a)) \/
      e = FileExistsError dir)) /\
  cb_state (run w).1 = cb_state w /\
  trace (run w).1 = trace w ++ [EvMakedirs dir] /\
  (forall p n, fs w !! p = Some n -> fs (run w).1 !! p = Some n) /\
  (forall p, fs (run w).1 !! p <> fs w !! p ->
             p ∈ intermediate_dirs dir /\
             fs w !! p = None /\ fs (run w).1 !! p = Some Dir) /\
  (Forall (fun a => fs w !! a = Some Dir) (intermediate_dirs dir) ->
   fs (run w).1 = fs w /\
   (run w).2 = inl (match fs w !! dir with
                    | Some _ => FileExistsError dir
                    | None => PermissionError dir
                    end)).
Proof.
  intros Hin Hbad.
  destruct (create_dir_refused creation_callback output_directory
              [id package_declaration ++ py "-md"] w q Hin Hbad)
    as (w' & e & Ec & Hshape & Hc & Ht & Hdir & Hsame).
  destruct (create_dir_fs_kept _ _ _ _ _ _ Ec) as [Hk Hch].
  change (os_path_join output_directory [id package_declaration ++ py "-md"])
    with dir in *.
  rewrite generate_unfold, Ec. cbn [fst snd].
  split; [now exists e|]. split; [exact Hc|]. split; [exact Ht|].
  split; [exact Hk|]. split.
  - intros p Hp. destruct (Hch p Hp) as (Hpin & Hn & Hd).
    split; [|now split].
    apply elem_of_chain in Hpin as [Hpin| ->]; [exact Hpin|].
    now destruct Hp.
  - intros Hall. destruct (Hsame Hall) as [Hfs ->]. now split.
Qed.

(** X11: the output directory is joined with [os.path.join], so a
    package id that begins with the separator replaces the caller's
    output directory: the files go to the id followed by [-md], and
    [generate] does the same for every [output_directory]. *)
Theorem absolute_id_ignores_output_directory (other_directory : pystr) w :
  starts_with [SLASH] (id package_declaration) = true ->
  dir = id package_declaration ++ py "-md" /\
  generate jinja2 package_declaration globals_ other_directory
    creation_callback logger w = run w.
Proof.
  intros H.
  assert (Hdir : forall o,
             os_path_join o [id package_declaration ++ py "-md"]
             = id package_declaration ++ py "-md").
  { intros o. unfold os_path_join, join2. cbn [fold_left].
    destruct (id package_declaration) as [|c i]; [discriminate H|].
    cbn [app]. cbn [starts_with] in *. now rewrite H. }
  split; [apply Hdir|].
  rewrite !generate_unfold. unfold create_dir_with_path_components.
  now rewrite !Hdir.
Qed.

(** X12: whatever the outcome, the paths the callback is invoked with
    are an initial part of the order of a complete run: the directory,
    traits.md and specifications.md where they are rendered, index.md.
    A failing call never skips a path, and never reports one twice. *)
Theorem callbacks_initial_part w :
  exists evs,
    trace (run w).1 = trace w ++ evs /\
    callbacks evs `prefix_of`
      [dir]
      ++ (if truthy (traits package_declaration) then [traits_md] else [])
      ++ (if truthy (specifications package_declaration)
          then [specifications_md] else [])
      ++ [index_md] /\
    NoDup (callbacks evs).
Proof.
  destruct (run w) as [w' r] eqn:E. cbn [fst snd].
  destruct (generate_run _ _ _ _ _ _ _ _ _ E) as (_ & _ & evs & Ht & Hp & _).
  exists evs. split; [assumption|].
  apply (omap_prefix
           (fun ev => match ev with EvCallback p => Some p | _ => None end))
    in Hp.
  fold (callbacks evs) in Hp.
  fold (callbacks (expected_trace package_declaration output_directory)) in Hp.
  rewrite callbacks_expected in Hp.
  rewrite documents_paths in Hp. split; [exact Hp|].
  destruct Hp as [k Hk].
  pose proof (documents_paths_distinct package_declaration output_directory)
    as Hnd.
  rewrite documents_paths in Hnd.
  rewrite Hk in Hnd. now apply NoDup_app in Hnd as [Hnd _].
Qed.

(** X13: the state of the caller's callback after a call that returns
    is the state the callback reaches from the one before the call by
    taking the directory, then the rendered listings, then index.md, in
    this order; [generate] touches it in no other way. *)
Theorem callback_state_threaded w :
  (run w).2 = inr tt ->
  cb_state (run w).1
  = fold_left (fun s p => (creation_callback p s).1)
      ([dir]
       ++ (if truthy (traits package_declaration) then [traits_md] else [])
       ++ (if truthy (specifications package_declaration)
           then [specifications_md] else [])
       ++ [index_md])
      (cb_state w).
Proof.
  destruct (generate_calls jinja2 package_declaration globals_ output_directory
              creation_callback logger w) as (evs & Ht & Hc & _).
  destruct (run w) as [w' r] eqn:E. cbn [fst snd] in *. intros ->.
  destruct (generate_run _ _ _ _ _ _ _ _ _ E) as (_ & _ & evs' & Ht' & _ & Hev).
  assert (evs' = evs) as -> by (apply (trace_suffix_unique w); congruence).
  rewrite Hc, (Hev eq_refl), callbacks_expected, documents_paths.
  reflexivity.
Qed.

(** X14: after a call that returns, the output directory is a directory
    and each rendered document is a file that holds exactly the text of
    its bundled template, rendered with the caller's globals over
    Jinja's defaults, with the two custom filters among the filters,
    and with the document's variables; this text is encodable as
    UTF-8. *)
Theorem output_contents w :
  (run w).2 = inr tt ->
  fs (run w).1 !! dir = Some Dir /\
  forall d, d ∈ docs ->
    exists t text,
      PackageLoader jinja2 (py "openassetio_traitgen") (template_name d.1.1)
      = Some t /\
      t (globals_ ∪ DEFAULT_NAMESPACE jinja2)
        (<[py "to_type_pretty_name" := DeclFilter to_type_pretty_name]>
           (<[py "cleanup_md_string" := StrFilter cleanup_md_string]>
              (DEFAULT_FILTERS jinja2)))
        d.2 = inr text /\
      encodable text = true /\
      fs (run w).1 !! d.1.2 = Some (File text).
Proof.
  destruct (run w) as [w' r] eqn:E. cbn [fst snd]. intros ->.
  destruct (generate_ok _ _ _ _ _ _ _ _ E) as (_ & Hdir & Hall).
  split; [exact Hdir|].
  intros d Hd. rewrite Forall_forall in Hall.
  destruct (Hall d Hd) as (text & (t & Hl & Ht & He) & _ & Hf).
  exists t, text. repeat split; assumption.
Qed.

(** X15: [generate] removes nothing and never replaces a directory by a
    file or a file by a directory: whatever the outcome, a path that
    was a directory before the call is one after it, and a path that
    was a file is still a file. *)
Theorem node_kinds_kept w p :
  (fs w !! p = Some Dir -> fs (run w).1 !! p = Some Dir) /\
  (forall c, fs w !! p = Some (File c) ->
             exists c', fs (run w).1 !! p = Some (File c')).
Proof.
  rewrite generate_unfold.
  destruct (create_dir_with_path_components _ _ _ w) as [w1 r1] eqn:E.
  destruct (create_dir_kind _ _ _ _ _ _ p E) as [Hd Hf].
  destruct r1 as [e|p1]; cbn [fst snd]; [now split|].
  destruct (render_documents _ _ _ w1) as [w2 r2] eqn:Er. cbn [fst snd].
  destruct (render_documents_kind _ _ _ _ _ _ p Er) as [Hd2 Hf2].
  split; [auto|].
  intros c Hc. destruct (Hf _ Hc) as [c1 Hc1]. eauto.
Qed.

End FurtherRuns.

(** *** The further properties at a concrete package *)

Lemma missing_template_witness :
  (render_template (_create_jinja_env Demo.jinja2 ∅ tt) Demo.record_path
     (py "classes") (py "out/classes.md") ∅ Demo.fresh).2
  = inl (TemplateNotFound (py "markdown/classes.md.in")) /\
  fs (render_template (_create_jinja_env Demo.jinja2 ∅ tt) Demo.record_path
        (py "classes") (py "out/classes.md") ∅ Demo.fresh).1 = ∅.
Proof.
  destruct (missing_template_leaves_files (_create_jinja_env Demo.jinja2 ∅ tt)
              Demo.record_path (py "classes") (py "out/classes.md") ∅ Demo.fresh)
    as (H1 & H2 & _); [vm_compute; reflexivity|].
  split; [exact H1|exact H2].
Defined.

Lemma failed_render_witness :
  let w := {| fs := {[ py "out/specifications.md" := File (py "old text") ]};
              denied := fun _ => false; cb_state := []; trace := [] |} in
  (render_template (_create_jinja_env Demo.jinja2_dict ∅ tt) Demo.record_path
     (py "specifications") (py "out/specifications.md") ∅ w).2
  = inl (TypeError (py "Dictionary types are not yet supported as trait properties")) /\
  fs (render_template (_create_jinja_env Demo.jinja2_dict ∅ tt) Demo.record_path
        (py "specifications") (py "out/specifications.md") ∅ w).1
  !! py "out/specifications.md" = Some (File []).
Proof.
  intros w.
  destruct (failed_render_empties_file (_create_jinja_env Demo.jinja2_dict ∅ tt)
              Demo.record_path (py "specifications") (py "out/specifications.md")
              ∅ Demo.dict_template
              (TypeError (py "Dictionary types are not yet supported as trait properties"))
              w)
    as (H1 & H2 & _).
  - vm_compute. reflexivity.
  - reflexivity.
  - vm_compute. discriminate.
  - left. vm_compute. reflexivity.
  - split; [exact H1|]. rewrite H2. apply lookup_insert_eq.
Defined.

Lemma directory_not_creatable_witness :
  let w := {| fs := {[ py "out" := File [] ]};
              denied := fun _ => false; cb_state := []; trace := [] |} in
  (demo_run Demo.both w).2 = inl (NotADirectoryError (py "out/pkg-md")) /\
  (exists e, (demo_run Demo.both w).2 = inl e) /\
  cb_state (demo_run Demo.both w).1 = [] /\
  trace (demo_run Demo.both w).1 = [EvMakedirs (py "out/pkg-md")] /\
  fs (demo_run Demo.both w).1 !! py "out" = Some (File []).
Proof.
  intros w.
  destruct (directory_not_creatable Demo.jinja2 Demo.both ∅ (py "out")
              Demo.record_path tt w (py "out"))
    as ((e & He & _) & Hc & Ht & Hk & _).
  - apply list_elem_of_In. vm_compute. left. reflexivity.
  - left. exists []. vm_compute. reflexivity.
  - split; [vm_compute; reflexivity|]. split; [now exists e|].
    split; [exact Hc|]. split; [exact Ht|]. apply Hk. vm_compute. reflexivity.
Defined.

Lemma absolute_id_witness :
  let p := {| id := py "/srv/pkg"; traits := Some [py "usage"];
              specifications := None |} in
  output_dir p (py "out") = py "/srv/pkg-md" /\
  generate Demo.jinja2 p ∅ (py "elsewhere") Demo.record_path tt Demo.fresh
  = generate Demo.jinja2 p ∅ (py "out") Demo.record_path tt Demo.fresh.
Proof.
  intros p.
  apply (absolute_id_ignores_output_directory Demo.jinja2 p ∅ (py "out")
           Demo.record_path tt (py "elsewhere") Demo.fresh).
  reflexivity.
Defined.

Lemma callback_state_witness :
  (demo_run Demo.both Demo.fresh).2 = inr tt /\
  cb_state (demo_run Demo.both Demo.fresh).1
  = [ py "out/pkg-md"; py "out/pkg-md/traits.md";
      py "out/pkg-md/specifications.md"; py "out/pkg-md/index.md" ].
Proof.
  assert (H : (demo_run Demo.both Demo.fresh).2 = inr tt)
    by (vm_compute; reflexivity).
  split; [exact H|].
  pose proof (callback_state_threaded Demo.jinja2 Demo.both ∅ (py "out")
                Demo.record_path tt Demo.fresh H) as E.
  rewrite E. reflexivity.
Defined.

Lemma output_contents_witness :
  (demo_run Demo.both Demo.fresh).2 = inr tt /\
  fs (demo_run Demo.both Demo.fresh).1 !! py "out/pkg-md" = Some Dir /\
  exists text,
    Demo.listing_template ∅
      (<[py "to_type_pretty_name" := DeclFilter to_type_pretty_name]>
         (<[py "cleanup_md_string" := StrFilter cleanup_md_string]> ∅))
      {[ py "package" := VPackage Demo.both;
         py "namespaces" := VList [py "usage"] ]} = inr text /\
    fs (demo_run Demo.both Demo.fresh).1 !! py "out/pkg-md/traits.md"
    = Some (File text).
Proof.
  assert (H : (demo_run Demo.both Demo.fresh).2 = inr tt)
    by (vm_compute; reflexivity).
  split; [exact H|].
  destruct (output_contents Demo.jinja2 Demo.both ∅ (py "out")
              Demo.record_path tt Demo.fresh H) as [Hdir Hdocs].
  split; [exact Hdir|].
  destruct (Hdocs (py "traits", py "out/pkg-md/traits.md",
                   {[ py "package" := VPackage Demo.both;
                      py "namespaces" := VList [py "usage"] ]}))
    as (t & text & Hl & Ht & _ & Hf).
  - apply list_elem_of_In. left. reflexivity.
  - exists text. injection Hl as <-. split; [|exact Hf].
    rewrite <- Ht. reflexivity.
Defined.

Lemma node_kinds_witness :
  exists text,
    fs (demo_run Demo.both (demo_run Demo.both Demo.fresh).1).1
    !! py "out/pkg-md/index.md" = Some (File text).
Proof.
  eapply (node_kinds_kept Demo.jinja2 Demo.both ∅ (py "out") Demo.record_path
            tt (demo_run Demo.both Demo.fresh).1 (py "out/pkg-md/index.md")).
  vm_compute. reflexivity.
Defined.
